(** * ALS (Astro Live Stacker): image input and session control

    A shallow embedding of [src/als/io/input.py] and [src/als/logic.py].

    Python objects that are shared and mutated ([Image] instances travelling
    through the queues) live in an explicit heap; the module-level singleton
    [DYNAMIC_DATA] and the [Controller] instance are records threaded through
    a state-and-exception monad; exceptions are values of [exn]. *)

From stdpp Require Import base option list gmap strings.

Local Open Scope nat_scope.

(** ** Exceptions *)

(** The exception classes the two modules raise, catch or let through. *)
Inductive exn_class :=
| AssertionError
| IndexError
| AttributeError
| ValueError
| OSError
| LibRawNonFatalError
| LibRawFatalError
| InputError
| ScannerStartError
| AlsException
| SessionError
| CriticalFolderMissing
| WebServerStartFailure.

Global Instance exn_class_eq_dec : EqDecision exn_class.
Proof. solve_decision. Defined.


(** The class statements of the two modules:
    [class ScannerStartError(InputError)], [class SessionError(AlsException)],
    [class CriticalFolderMissing(SessionError)],
    [class WebServerStartFailure(AlsException)]. *)
Definition superclass (c : exn_class) : option exn_class :=
  match c with
  | ScannerStartError => Some InputError
  | SessionError => Some AlsException
  | CriticalFolderMissing => Some SessionError
  | WebServerStartFailure => Some AlsException
  | _ => None
  end.

(** The chain of a class and its ancestors; three steps reach every root. *)
Fixpoint ancestors (depth : nat) (c : exn_class) : list exn_class :=
  match depth with
  | 0 => [c]
  | S d => c :: from_option (ancestors d) [] (superclass c)
  end.

Definition issubclass (c d : exn_class) : bool :=
  bool_decide (d ∈ ancestors 3 c).

(** An exception instance: its class and the arguments it was built with.
    For an [AlsException] the arguments are [message; details]. *)
Record exn := Exn { exn_cls : exn_class; exn_args : list string }.

Global Instance exn_eq_dec : EqDecision exn.
Proof. solve_decision. Defined.

Definition isinstance (e : exn) (c : exn_class) : bool :=
  issubclass (exn_cls e) c.

(** [str(e)]: empty without argument, the argument when there is one, the
    tuple of the arguments otherwise. *)
Definition exn_str (e : exn) : string :=
  match exn_args e with
  | [] => EmptyString
  | [a] => a
  | args => "(" +:+ String.concat ", " ((λ a, "'" +:+ a +:+ "'") <$> args) +:+ ")"
  end.

(** [e.message] and [e.details] of an [AlsException]. *)
Definition exn_message (e : exn) : string := default EmptyString (exn_args e !! 0).
Definition exn_details (e : exn) : string := default EmptyString (exn_args e !! 1).

(** The outcome of a call: a value, or an exception that left the call. *)
Inductive result (A : Type) :=
| Returned (a : A)
| Raised (e : exn).
Arguments Returned {A} a.
Arguments Raised {A} e.

(** ** Messages sent to [MESSAGE_HUB] *)

Inductive level := LevelInfo | LevelError.

Record Message := Msg {
  msg_level : level;
  msg_key : string;
  msg_args : list string
}.

(** ** Images *)

Definition ndarray := list (list nat).

(** Modelled from the spec: class [Image] of [als.model.base], whose source
    is not available. Section 3 gives it the samples and three pieces of
    metadata, all absent on a newly built image. *)
Record Image := mkImage {
  data : ndarray;
  bayer_pattern : option string;
  origin : option string;
  destination : option string
}.

Definition new_Image (d : ndarray) : Image :=
  {| data := d; bayer_pattern := None; origin := None; destination := None |}.

Definition set_bayer_pattern (p : string) (i : Image) : Image :=
  {| data := data i; bayer_pattern := Some p;
     origin := origin i; destination := destination i |}.

Definition set_origin (o : string) (i : Image) : Image :=
  {| data := data i; bayer_pattern := bayer_pattern i;
     origin := Some o; destination := destination i |}.

(** ** [input.py]: reading a RAW image *)

Module Input.

(** What [rawpy.imread] hands back for a file with a Bayer pattern: the
    flattened [raw_pattern] (an array of unsigned bytes), the decoded
    [color_desc] and the visible samples. *)
Record RawPy := {
  raw_pattern : list nat;
  color_desc : string;
  raw_image_visible : ndarray
}.

(** What [imread] and the body of its [with] block come to. The two LibRaw
    errors have a constructor each, with the text of the error. A file
    without a Bayer pattern (a linear DNG, a Foveon sensor) is decoded, and
    its [raw_pattern] is [None]: [ImreadNoPattern]. Any other exception comes
    as [ImreadRaised]. *)
Inductive imread_outcome :=
| ImreadOk (raw : RawPy)
| ImreadNonFatal (msg : string)
| ImreadFatal (msg : string)
| ImreadNoPattern
| ImreadRaised (error : exn).

(** [enumerate(l)] *)
Definition enumerate {A} (l : list A) : list (nat * A) := imap pair l.

(** The body of the [for i, index in enumerate(bayer_pattern_indices)] loop,
    over the pairs still to visit:
<<
    assert bayer_pattern_indices[i] < len(bayer_pattern_indices)
    bayer_pattern += bayer_pattern_desc[index]
>> *)
Fixpoint bayer_pattern_loop (bayer_pattern_indices : list nat)
    (bayer_pattern_desc : string) (todo : list (nat * nat))
    (bayer_pattern : string) : result string :=
  match todo with
  | [] => Returned bayer_pattern
  | (i, index) :: todo' =>
      match bayer_pattern_indices !! i with
      | None => Raised (Exn IndexError [])
      | Some x =>
          if x <? length bayer_pattern_indices then
            match String.get index bayer_pattern_desc with
            | None => Raised (Exn IndexError [])
            | Some c =>
                bayer_pattern_loop bayer_pattern_indices bayer_pattern_desc
                  todo' (bayer_pattern +:+ String c EmptyString)
            end
          else Raised (Exn AssertionError [])
      end
  end.

(** Lines 382-386 of [_read_raw_image]. *)
Definition compute_bayer_pattern (bayer_pattern_indices : list nat)
    (bayer_pattern_desc : string) : result string :=
  if length bayer_pattern_indices =? String.length bayer_pattern_desc then
    bayer_pattern_loop bayer_pattern_indices bayer_pattern_desc
      (enumerate bayer_pattern_indices) EmptyString
  else Raised (Exn AssertionError []).

(** [_set_image_file_origin]; [path] stands for [str(path.resolve())]. *)
Definition _set_image_file_origin (image : Image) (path : string) : Image :=
  set_origin ("FILE : " +:+ path) image.

(** [_report_fs_error] *)
Definition _report_fs_error (path : string) (error : exn) : Message :=
  Msg LevelError "Error reading from file {} : {}" [path; exn_str error].

(** [_read_raw_image]: the outcome of the call and the messages it sent.
    Only the two LibRaw errors are caught; they are reported and turned into
    [None]. Any other exception leaves the function: the [AssertionError] of
    the two asserts, and the [AttributeError] that
    [raw_image.raw_pattern.flatten()] on line 376 raises when [raw_pattern]
    is [None]. *)
Definition _read_raw_image (path : string) (r : imread_outcome)
  : result (option Image) * list Message :=
  match r with
  | ImreadOk raw_image =>
      let bayer_pattern_indices := raw_pattern raw_image in
      let bayer_pattern_desc := color_desc raw_image in
      match compute_bayer_pattern bayer_pattern_indices bayer_pattern_desc with
      | Returned bayer_pattern =>
          let new_image := new_Image (raw_image_visible raw_image) in
          let new_image := set_bayer_pattern bayer_pattern new_image in
          let new_image := _set_image_file_origin new_image path in
          (Returned (Some new_image), [])
      | Raised e => (Raised e, [])
      end
  | ImreadNonFatal msg =>
      let non_fatal_error := Exn LibRawNonFatalError [msg] in
      (Returned None, [_report_fs_error path non_fatal_error])
  | ImreadFatal msg =>
      let fatal_error := Exn LibRawFatalError [msg] in
      (Returned None, [_report_fs_error path fatal_error])
  | ImreadNoPattern =>
      (Raised (Exn AttributeError
                 ["'NoneType' object has no attribute 'flatten'"]), [])
  | ImreadRaised error =>
      if isinstance error LibRawNonFatalError then
        (Returned None, [_report_fs_error path error])
      else if isinstance error LibRawFatalError then
        (Returned None, [_report_fs_error path error])
      else (Raised error, [])
  end.

(** The contract of the Bayer normalisation, in the spec's words. *)
Definition bayer_contract (indices : list nat) (description : string) : Prop :=
  length indices = String.length description ∧
  Forall (λ index, index < length indices) indices.

End Input.

(** ** Configuration and the outside world *)

(** The values [als.config] returns. *)
Record Config := {
  get_input_system : string;
  get_scan_folder_path : string;
  get_work_folder_path : string;
  get_web_folder_path : string;
  get_indi_server : string;
  get_indi_port : N
}.

(** What the outside world answers during one controller call. *)
Record World := {
  config : Config;
  (** [Path(path).is_dir()] *)
  is_dir : string → bool;
  (** [Some msg] when the file operations of [_setup_web_content] raise
      [OSError(msg)] *)
  web_content_error : option string;
  (** [Some msg] when scheduling or starting the [PollingObserver] raises
      [OSError(msg)] *)
  observer_error : option string;
  (** what [connectServer()] achieves: is the INDI server connected
      afterwards *)
  connectServer : bool
}.

(** ** [input.py]: the scanners *)

Module Scanner.

Definition SCANNER_TYPE_FILESYSTEM : string := "FS".
Definition SCANNER_TYPE_INDI : string := "INDI".

Record PollingObserver := { alive : bool }.

(** The two subclasses of [InputScanner] with their instance attributes. *)
Inductive InputScanner :=
| FolderScanner (_observer : option PollingObserver)
| IndiScanner (server : string * N) (ccdDevice : option string)
    (isServerConnected : bool).

(** [InputScanner.create_scanner]; [None] is the call without argument,
    which takes the default [SCANNER_TYPE_INDI]. *)
Definition create_scanner (cfg : Config) (scanner_type : option string)
  : result InputScanner :=
  let scanner_type := default SCANNER_TYPE_INDI scanner_type in
  if String.eqb scanner_type SCANNER_TYPE_FILESYSTEM then
    Returned (FolderScanner None)
  else if String.eqb scanner_type SCANNER_TYPE_INDI then
    Returned (IndiScanner (get_indi_server cfg, get_indi_port cfg) None false)
  else
    Raised (Exn ValueError ["Unsupported scanner type : " +:+ scanner_type]).

(** [start]: the outcome and the scanner as the call leaves it.
    [FolderScanner.start] binds a new observer before it schedules and starts
    it, and turns an [OSError] into [ScannerStartError]. It does not stop the
    observer that [_observer] referred to before: one that lives goes on
    delivering files, out of the reach of [stop]. The scanner of the model
    is the observer that [_observer] refers to, so for a scanner started at
    rest it has all there is, and for a scanner started while it scans it has
    the new observer only.
    [IndiScanner.start] connects when not connected and looks at no result. *)
Definition start (w : World) (self : InputScanner)
  : result unit * InputScanner :=
  match self with
  | FolderScanner _ =>
      match observer_error w with
      | Some os_error =>
          (Raised (Exn ScannerStartError [os_error]),
           FolderScanner (Some {| alive := false |}))
      | None => (Returned (), FolderScanner (Some {| alive := true |}))
      end
  | IndiScanner srv dev connected =>
      if negb connected then (Returned (), IndiScanner srv dev (connectServer w))
      else (Returned (), self)
  end.

(** [stop] *)
Definition stop (self : InputScanner) : InputScanner :=
  match self with
  | FolderScanner (Some _) => FolderScanner None
  | FolderScanner None => self
  | IndiScanner srv dev connected =>
      if connected then IndiScanner srv dev false else self
  end.

(** Is the scanner delivering images: its observer thread lives, or its
    server connection is up. *)
Definition is_scanning (self : InputScanner) : bool :=
  match self with
  | FolderScanner (Some o) => alive o
  | FolderScanner None => false
  | IndiScanner _ _ connected => connected
  end.

End Scanner.

(** ** The shared state *)

Abbreviation loc := positive.

(** Modelled from the spec: [SignalingQueue] of [als.code_utilities], whose
    source is not available. Section 3: an ordered, unbounded FIFO without
    duplicate suppression. It holds references to images. *)
Definition SignalingQueue := list loc.

(** [queue.put(item)] *)
Definition put (item : loc) (queue : SignalingQueue) : SignalingQueue :=
  queue ++ [item].

(** [queue.qsize()] *)
Definition qsize (queue : SignalingQueue) : nat := length queue.

(** Modelled from the spec: the status constants of class [Session] of
    [als.model.base], whose source is not available. Section 3: a single
    mutable status value with the states stopped, running and paused. *)
Inductive Session_status := stopped | running | paused.

Global Instance Session_status_eq_dec : EqDecision Session_status.
Proof. solve_decision. Defined.

(** The attributes of the singleton [DYNAMIC_DATA] that the two modules
    read or write. *)
Record DynamicData := {
  session : Session_status;
  has_new_warnings : bool;
  pre_processor_busy : bool;
  stacker_busy : bool;
  post_processor_busy : bool;
  saver_busy : bool;
  pre_process_queue : SignalingQueue;
  stacker_queue : SignalingQueue;
  process_queue : SignalingQueue;
  save_queue : SignalingQueue
}.

Definition is_stopped (d : DynamicData) : bool := bool_decide (session d = stopped).
Definition is_running (d : DynamicData) : bool := bool_decide (session d = running).
Definition is_paused (d : DynamicData) : bool := bool_decide (session d = paused).

(** [DYNAMIC_DATA.session.set_status(status)] *)
Definition set_status (status : Session_status) (d : DynamicData) : DynamicData :=
  {| session := status;
     has_new_warnings := has_new_warnings d;
     pre_processor_busy := pre_processor_busy d;
     stacker_busy := stacker_busy d;
     post_processor_busy := post_processor_busy d;
     saver_busy := saver_busy d;
     pre_process_queue := pre_process_queue d;
     stacker_queue := stacker_queue d;
     process_queue := process_queue d;
     save_queue := save_queue d |}.

Definition set_has_new_warnings (b : bool) (d : DynamicData) : DynamicData :=
  {| session := session d;
     has_new_warnings := b;
     pre_processor_busy := pre_processor_busy d;
     stacker_busy := stacker_busy d;
     post_processor_busy := post_processor_busy d;
     saver_busy := saver_busy d;
     pre_process_queue := pre_process_queue d;
     stacker_queue := stacker_queue d;
     process_queue := process_queue d;
     save_queue := save_queue d |}.

(** The four queue objects created with the controller. *)
Inductive queue_name :=
| PreProcessQueue
| StackerQueue
| PostProcessQueue
| SaverQueue.

Global Instance queue_name_eq_dec : EqDecision queue_name.
Proof. solve_decision. Defined.

Definition all_queues : list queue_name :=
  [PreProcessQueue; StackerQueue; PostProcessQueue; SaverQueue].

Definition queue (q : queue_name) (d : DynamicData) : SignalingQueue :=
  match q with
  | PreProcessQueue => pre_process_queue d
  | StackerQueue => stacker_queue d
  | PostProcessQueue => process_queue d
  | SaverQueue => save_queue d
  end.

Definition set_queue (q : queue_name) (content : SignalingQueue)
    (d : DynamicData) : DynamicData :=
  {| session := session d;
     has_new_warnings := has_new_warnings d;
     pre_processor_busy := pre_processor_busy d;
     stacker_busy := stacker_busy d;
     post_processor_busy := post_processor_busy d;
     saver_busy := saver_busy d;
     pre_process_queue :=
       if decide (q = PreProcessQueue) then content else pre_process_queue d;
     stacker_queue :=
       if decide (q = StackerQueue) then content else stacker_queue d;
     process_queue :=
       if decide (q = PostProcessQueue) then content else process_queue d;
     save_queue :=
       if decide (q = SaverQueue) then content else save_queue d |}.

(** ** [input.py]: the backpressure gate *)

(** The condition of the [while] of [FolderScanner.wait_for_resources]. *)
Definition wait_condition (d : DynamicData) : bool :=
  negb (is_stopped d) &&
  (stacker_busy d || pre_processor_busy d ||
   (0 <? qsize (stacker_queue d)) || (0 <? qsize (pre_process_queue d))).

(** [FolderScanner.wait_for_resources]. Other threads write [DYNAMIC_DATA]
    while the caller sleeps: [observe t] is what the caller reads [t] seconds
    after the call. Each round sleeps one second. The result is the time at
    which the call returns, or [None] when [rounds] evaluations of the
    condition were not enough. *)
Fixpoint wait_for_resources (rounds : nat) (observe : nat → DynamicData)
    (now : nat) : option nat :=
  match rounds with
  | 0 => None
  | S rounds' =>
      if wait_condition (observe now)
      then wait_for_resources rounds' observe (now + 1)
      else Some now
  end.

(** ** [logic.py]: the controller *)

(** Modelled from the spec: class [Stacker] of [als.stack], whose source is
    not available. Section 3: the current combined frame (absent when no
    frame was stacked yet), the frame count, the combination mode and the
    alignment flag. *)
Record Stacker := {
  accumulator : option ndarray;
  size : nat;
  stacking_mode : string;
  align_before_stack : bool
}.

(** Modelled from the spec: [Stacker.reset], whose source is not available.
    Section 3: reset clears the accumulator to empty with count zero. *)
Definition Stacker_reset (st : Stacker) : Stacker :=
  {| accumulator := None;
     size := 0;
     stacking_mode := stacking_mode st;
     align_before_stack := align_before_stack st |}.

(** Everything a controller call can read or write: the singletons
    [DYNAMIC_DATA] and [MESSAGE_HUB], the attributes of the [Controller]
    instance, and the heap of [Image] objects the queues refer to. *)
Record State := {
  DYNAMIC_DATA : DynamicData;
  MESSAGE_HUB : list Message;
  heap : gmap loc Image;
  _input_scanner : option Scanner.InputScanner;
  _stacker : Stacker;
  _last_stacking_result : option loc
}.

Definition with_DYNAMIC_DATA (f : DynamicData → DynamicData) (s : State) : State :=
  {| DYNAMIC_DATA := f (DYNAMIC_DATA s);
     MESSAGE_HUB := MESSAGE_HUB s;
     heap := heap s;
     _input_scanner := _input_scanner s;
     _stacker := _stacker s;
     _last_stacking_result := _last_stacking_result s |}.

Definition with_MESSAGE_HUB (f : list Message → list Message) (s : State) : State :=
  {| DYNAMIC_DATA := DYNAMIC_DATA s;
     MESSAGE_HUB := f (MESSAGE_HUB s);
     heap := heap s;
     _input_scanner := _input_scanner s;
     _stacker := _stacker s;
     _last_stacking_result := _last_stacking_result s |}.

Definition with_heap (f : gmap loc Image → gmap loc Image) (s : State) : State :=
  {| DYNAMIC_DATA := DYNAMIC_DATA s;
     MESSAGE_HUB := MESSAGE_HUB s;
     heap := f (heap s);
     _input_scanner := _input_scanner s;
     _stacker := _stacker s;
     _last_stacking_result := _last_stacking_result s |}.

Definition with_input_scanner (sc : option Scanner.InputScanner) (s : State) : State :=
  {| DYNAMIC_DATA := DYNAMIC_DATA s;
     MESSAGE_HUB := MESSAGE_HUB s;
     heap := heap s;
     _input_scanner := sc;
     _stacker := _stacker s;
     _last_stacking_result := _last_stacking_result s |}.

Definition with_stacker (f : Stacker → Stacker) (s : State) : State :=
  {| DYNAMIC_DATA := DYNAMIC_DATA s;
     MESSAGE_HUB := MESSAGE_HUB s;
     heap := heap s;
     _input_scanner := _input_scanner s;
     _stacker := f (_stacker s);
     _last_stacking_result := _last_stacking_result s |}.

Definition with_last_stacking_result (r : option loc) (s : State) : State :=
  {| DYNAMIC_DATA := DYNAMIC_DATA s;
     MESSAGE_HUB := MESSAGE_HUB s;
     heap := heap s;
     _input_scanner := _input_scanner s;
     _stacker := _stacker s;
     _last_stacking_result := r |}.

(** *** The monad of controller calls *)

(** A call runs from a state to an outcome and the state it leaves; what was
    written before an exception stays written. *)
Definition M (A : Type) : Type := State → result A * State.

Definition ret {A} (a : A) : M A := λ s, (Returned a, s).

Definition bind {A B} (m : M A) (k : A → M B) : M B := λ s,
  match m s with
  | (Returned a, s') => k a s'
  | (Raised e, s') => (Raised e, s')
  end.

Definition raise {A} (e : exn) : M A := λ s, (Raised e, s).

(** [try: body except cls as e: handler e] *)
Definition try_except {A} (body : M A) (cls : exn_class) (handler : exn → M A)
  : M A := λ s,
  match body s with
  | (Raised e, s') => if isinstance e cls then handler e s' else (Raised e, s')
  | r => r
  end.

(** An outcome computed without the state. *)
Definition lift {A} (r : result A) : M A := λ s, (r, s).

Definition gets {A} (f : State → A) : M A := λ s, (Returned (f s), s).
Definition modify (f : State → State) : M unit := λ s, (Returned (), f s).

Declare Scope M_scope.
Delimit Scope M_scope with M.
Bind Scope M_scope with M.
Notation "x ← m ; k" := (bind m (λ x, k))
  (at level 20, m at level 100, k at level 200, only parsing) : M_scope.
Notation "m ;; k" := (bind m (λ _, k))
  (at level 100, k at level 200, only parsing, right associativity) : M_scope.

Module Controller.
Local Open Scope M_scope.

(** [MESSAGE_HUB.dispatch_info] and [MESSAGE_HUB.dispatch_error] *)
Definition dispatch_info (key : string) (args : list string) : M unit :=
  modify (with_MESSAGE_HUB (λ hub, hub ++ [Msg LevelInfo key args])).

Definition dispatch_error (key : string) (args : list string) : M unit :=
  modify (with_MESSAGE_HUB (λ hub, hub ++ [Msg LevelError key args])).

(** [str(b)] of a Python [bool] *)
Definition str_bool (b : bool) : string := if b then "True" else "False".

(** Modelled from the spec: [Image.clone] of [als.model.base], whose source
    is not available. Section 3: a stage that keeps a copy clones explicitly;
    the clone is a new object with the content of [image]. *)
Definition clone (image : loc) : M loc := λ s,
  let new := fresh (dom (heap s)) in
  (Returned new,
   with_heap (λ h, from_option (λ v, <[new := v]> h) h (h !! image)) s).

(** The rounds of [while not queue.empty(): queue.get()] on a queue with the
    given content: each round takes the head out. *)
Fixpoint drain (content : SignalingQueue) : SignalingQueue :=
  match content with
  | [] => []
  | _ :: rest => drain rest
  end.

(** [Controller.purge_queue] *)
Definition purge_queue (q : queue_name) : M unit :=
  modify (with_DYNAMIC_DATA (λ d, set_queue q (drain (queue q d)) d)).

(** [queue.put(item)] on one of the four queues *)
Definition queue_put (q : queue_name) (item : loc) : M unit :=
  modify (with_DYNAMIC_DATA (λ d, set_queue q (put item (queue q d)) d)).

(** [Controller.on_new_stack_result] *)
Definition on_new_stack_result (image : loc) : M unit :=
  modify (with_heap (alter (set_origin "Stacking result") image));;
  c ← clone image;
  modify (with_last_stacking_result (Some c));;
  purge_queue PostProcessQueue;;
  c' ← clone image;
  queue_put PostProcessQueue c'.

(** [Controller.on_new_image_read] *)
Definition on_new_image_read (image : loc) : M unit :=
  queue_put PreProcessQueue image.

(** [Controller.on_new_pre_processed_image] *)
Definition on_new_pre_processed_image (image : loc) : M unit :=
  queue_put StackerQueue image.

(** [Controller._setup_web_content]: the files it writes are outside the
    model, only whether writing them raised [OSError] is kept. *)
Definition _setup_web_content (w : World) : M unit :=
  match web_content_error w with
  | Some os_error => raise (Exn OSError [os_error])
  | None => ret ()
  end.

(** [self._input_scanner.start()] *)
Definition input_scanner_start (w : World) : M unit :=
  sc ← gets _input_scanner;
  match sc with
  | None => raise (Exn AttributeError ["'NoneType' object has no attribute 'start'"])
  | Some sc =>
      let '(r, sc') := Scanner.start w sc in
      modify (with_input_scanner (Some sc'));;
      lift r
  end.

(** [Controller._stop_input_scanner] *)
Definition _stop_input_scanner : M unit :=
  sc ← gets _input_scanner;
  match sc with
  | None => raise (Exn AttributeError ["'NoneType' object has no attribute 'stop'"])
  | Some sc =>
      modify (with_input_scanner (Some (Scanner.stop sc)));;
      dispatch_info "Input scanner stopped" []
  end.

(** The dictionary [folders_dict] of [start_session], in insertion order. *)
Definition folders_dict (cfg : Config) : list (string * string) :=
  [("scan", get_scan_folder_path cfg);
   ("work", get_work_folder_path cfg);
   ("web", get_web_folder_path cfg)].

(** The loop of [start_session] over [folders_dict.items()]. *)
Fixpoint check_folders (w : World) (folders : list (string * string)) : M unit :=
  match folders with
  | [] => ret ()
  | (role, path) :: folders' =>
      if negb (is_dir w path) then
        let title := "Missing critical folder" in
        let message :=
          "Your currently configured " +:+ role +:+ " folder '" +:+ path
            +:+ "' is missing." in
        raise (Exn CriticalFolderMissing [title; message])
      else check_folders w folders'
  end.

(** [Controller.start_session] *)
Definition start_session (w : World) : M unit :=
  try_except
    (stopped_now ← gets (λ s, is_stopped (DYNAMIC_DATA s));
     (if stopped_now : bool then
        dispatch_info "Starting new session..." [];;
        sc ← lift (Scanner.create_scanner (config w)
                     (Some (get_input_system (config w))));
        modify (with_input_scanner (Some sc));;
        modify (with_DYNAMIC_DATA (set_has_new_warnings false));;
        modify (with_stacker Stacker_reset);;
        check_folders w (folders_dict (config w))
      else
        dispatch_info "Restarting input scanner ..." []);;
     try_except (_setup_web_content w) OSError
       (λ os_error,
          raise (Exn SessionError ["Web folder could not be prepared";
                                   exn_str os_error]));;
     try_except
       (input_scanner_start w;;
        dispatch_info "Input scanner started" [])
       ScannerStartError
       (λ scanner_start_error,
          raise (Exn SessionError ["Input scanner could not start";
                                   exn_str scanner_start_error]));;
     st ← gets _stacker;
     dispatch_info "Session running in mode {} with alignment {}"
       [stacking_mode st; str_bool (align_before_stack st)];;
     modify (with_DYNAMIC_DATA (set_status running)))
    SessionError
    (λ session_error,
       dispatch_error "Session error. {} : {}"
         [exn_message session_error; exn_details session_error];;
       raise session_error).

(** [Controller.stop_session] *)
Definition stop_session : M unit :=
  stopped_now ← gets (λ s, is_stopped (DYNAMIC_DATA s));
  if negb stopped_now then
    modify (with_DYNAMIC_DATA (set_status stopped));;
    _stop_input_scanner;;
    purge_queue PreProcessQueue;;
    purge_queue StackerQueue;;
    purge_queue PostProcessQueue;;
    dispatch_info "Session stopped" []
  else ret ().

(** [Controller.pause_session] *)
Definition pause_session : M unit :=
  running_now ← gets (λ s, is_running (DYNAMIC_DATA s));
  (if running_now : bool then _stop_input_scanner else ret ());;
  dispatch_info "Session paused" [];;
  modify (with_DYNAMIC_DATA (set_status paused)).

(** [Controller.__init__], as far as the state of this model goes: the
    session is set to stopped and the busy flags are cleared on the
    [DYNAMIC_DATA] found, whose queues the controller takes over; there is no
    scanner and no stacking result yet; the new stacker is empty and is set
    to [I18n.STACKING_MODE_MEAN] (a constant of [als.model.data], taken as a
    parameter) with alignment. The workers it starts run for the life of the
    process and are not part of the state. *)
Definition __init__ (STACKING_MODE_MEAN : string) (d : DynamicData)
    (hub : list Message) (h : gmap loc Image) : State :=
  {| DYNAMIC_DATA :=
       {| session := stopped;
          has_new_warnings := has_new_warnings d;
          pre_processor_busy := false;
          stacker_busy := false;
          post_processor_busy := false;
          saver_busy := false;
          pre_process_queue := pre_process_queue d;
          stacker_queue := stacker_queue d;
          process_queue := process_queue d;
          save_queue := save_queue d |};
     MESSAGE_HUB := hub;
     heap := h;
     _input_scanner := None;
     _stacker :=
       {| accumulator := None; size := 0;
          stacking_mode := STACKING_MODE_MEAN; align_before_stack := true |};
     _last_stacking_result := None |}.

End Controller.

(** ** Concrete configurations and states for the examples *)

Module Examples.
Import Scanner.

Definition cfg : Config :=
  {| get_input_system := "FS";
     get_scan_folder_path := "/als/scan";
     get_work_folder_path := "/als/work";
     get_web_folder_path := "/als/web";
     get_indi_server := "localhost";
     get_indi_port := 7624 |}.

(** Every folder is there and nothing fails. *)
Definition world_ok : World :=
  {| config := cfg; is_dir := λ _, true;
     web_content_error := None; observer_error := None;
     connectServer := true |}.

(** The work folder is missing. *)
Definition world_no_work_folder : World :=
  {| config := cfg; is_dir := λ path, negb (String.eqb path "/als/work");
     web_content_error := None; observer_error := None;
     connectServer := true |}.

(** The observer of the folder scanner cannot start. *)
Definition world_scanner_fails : World :=
  {| config := cfg; is_dir := λ _, true;
     web_content_error := None;
     observer_error := Some "[Errno 2] No such file or directory: '/als/scan'";
     connectServer := true |}.

Definition frame (n : nat) : Image :=
  {| data := [[n; n]; [n; n]]; bayer_pattern := None;
     origin := Some "FILE : /als/scan/frame.fits"; destination := None |}.

(** A session at work: one image waits in each queue, three frames are
    stacked, the folder scanner runs. *)
Definition session_at_work : State :=
  {| DYNAMIC_DATA :=
       {| session := running;
          has_new_warnings := false;
          pre_processor_busy := false;
          stacker_busy := true;
          post_processor_busy := false;
          saver_busy := false;
          pre_process_queue := [1%positive];
          stacker_queue := [2%positive];
          process_queue := [3%positive];
          save_queue := [4%positive] |};
     MESSAGE_HUB := [];
     heap := {[ 1%positive := frame 1; 2%positive := frame 2;
                3%positive := frame 3; 4%positive := frame 4;
                5%positive := frame 5 ]};
     _input_scanner := Some (FolderScanner (Some {| alive := true |}));
     _stacker := {| accumulator := Some [[7; 7]; [7; 7]]; size := 3;
                    stacking_mode := "mean"; align_before_stack := true |};
     _last_stacking_result := Some 5%positive |}.

(** The same session after [pause_session]. *)
Definition session_paused : State :=
  with_DYNAMIC_DATA (set_status paused)
    (with_input_scanner (Some (FolderScanner None)) session_at_work).

(** The same session after the scanner was stopped and the status set to
    stopped, the stack kept. *)
Definition session_stopped : State :=
  with_DYNAMIC_DATA (set_status stopped)
    (with_input_scanner (Some (FolderScanner None)) session_at_work).

(** A controller that was just built. *)
Definition new_controller : State :=
  Controller.__init__ "mean"
    {| session := stopped; has_new_warnings := false;
       pre_processor_busy := false; stacker_busy := false;
       post_processor_busy := false; saver_busy := false;
       pre_process_queue := []; stacker_queue := [];
       process_queue := []; save_queue := [] |}
    [] ∅.

(** What a caller of [wait_for_resources] reads: the stacker is busy during
    the first two seconds, then everything is clear. *)
Definition busy_two_seconds (t : nat) : DynamicData :=
  {| session := running; has_new_warnings := false;
     pre_processor_busy := false; stacker_busy := t <? 2;
     post_processor_busy := false; saver_busy := false;
     pre_process_queue := []; stacker_queue := [];
     process_queue := []; save_queue := [] |}.

End Examples.

(** ** The properties in the words of the specification *)

(** The backpressure gate lets the caller through: the session is stopped,
    or every downstream indicator is clear. *)
Definition gate_clear (d : DynamicData) : Prop :=
  session d = stopped ∨
  (pre_process_queue d = [] ∧ stacker_queue d = [] ∧
   pre_processor_busy d = false ∧ stacker_busy d = false).

(** The transitions section 4.6 allows, a request that changes nothing
    included. *)
Definition legal_transition (before after : Session_status) : Prop :=
  match before, after with
  | stopped, running => True
  | running, paused | running, stopped => True
  | paused, running | paused, stopped => True
  | _, _ => before = after
  end.

(** The scanner object whose [start] a call of [start_session] reaches: the
    one it creates when the session is stopped, the one the controller
    already holds otherwise. *)
Definition scanner_to_start (w : World) (s : State) : option Scanner.InputScanner :=
  if is_stopped (DYNAMIC_DATA s) then
    match Scanner.create_scanner (config w) (Some (get_input_system (config w))) with
    | Returned sc => Some sc
    | Raised _ => None
    end
  else _input_scanner s.

(** A required working directory is missing. *)
Definition folder_missing (w : World) : Prop :=
  ∃ role path,
    (role, path) ∈ Controller.folders_dict (config w) ∧ is_dir w path = false.

(** The ingestion source fails to start: [start] of the scanner raises. *)
Definition source_fails_to_start (w : World) (s : State) : Prop :=
  ∃ sc e, scanner_to_start w s = Some sc ∧ (Scanner.start w sc).1 = Raised e.

(** Nothing stands in the way of a start: a supported input system is
    configured, the three folders are there, and neither the web content nor
    the observer of a folder scanner fails. *)
Definition world_fine (w : World) : Prop :=
  get_input_system (config w)
    ∈ [Scanner.SCANNER_TYPE_FILESYSTEM; Scanner.SCANNER_TYPE_INDI] ∧
  (∀ role path,
     (role, path) ∈ Controller.folders_dict (config w) → is_dir w path = true) ∧
  web_content_error w = None ∧
  observer_error w = None.


(** ** [input.py]: reading a file from disk *)

Module ImageReader.
Import Input.

(** A [pathlib.Path] as far as the readers look at it: the file name, its
    suffix, and [str(path.resolve())]. *)
Record Path := {
  path_name : string;
  path_suffix : string;
  path_resolve : string
}.

(** What [fits.open] and the access to the first HDU come to. [OSError] and
    [TypeError] are the two classes [_read_fit_image] handles; [TypeError] has
    its own constructor, any other exception comes as [FitsRaised]. *)
Inductive fits_outcome :=
| FitsOk (samples : ndarray) (header : gmap string string)
| FitsTypeError (msg : string)
| FitsRaised (error : exn).

(** The decoders of the two families of formats, by resolved path. *)
Record Decoders := {
  fits_open : string → fits_outcome;
  imread : string → imread_outcome
}.

Definition _IGNORED_FILENAME_START_PATTERNS : list string := ["."; "~"; "tmp"].

(** [str.lower()] on the letters A to Z. No other character lowers to one of
    the letters of the three suffixes compared with. *)
Definition lower_char (c : Ascii.ascii) : Ascii.ascii :=
  let n := Ascii.nat_of_ascii c in
  if (65 <=? n) && (n <=? 90) then Ascii.ascii_of_nat (n + 32) else c.

Fixpoint lower (s : string) : string :=
  match s with
  | EmptyString => EmptyString
  | String c s' => String (lower_char c) (lower s')
  end.

(** The loop [for pattern in _IGNORED_FILENAME_START_PATTERNS] with its
    [break]: the value of [ignore_image] when it ends. *)
Fixpoint ignore_loop (patterns : list string) (name : string) : bool :=
  match patterns with
  | [] => false
  | pattern :: patterns' =>
      if String.prefix pattern name then true else ignore_loop patterns' name
  end.

(** [_report_fs_error] on the text of the error. *)
Definition report_fs_error (path error_str : string) : Message :=
  Msg LevelError "Error reading from file {} : {}" [path; error_str].

(** [_read_fit_image]; [path] stands for [str(path.resolve())]. The header
    is a dictionary; [BAYERPAT] is copied when it is there. *)
Definition _read_fit_image (path : string) (r : fits_outcome)
  : result (option Image) * list Message :=
  match r with
  | FitsOk samples header =>
      let image := new_Image samples in
      let image :=
        match header !! "BAYERPAT" with
        | Some pattern => set_bayer_pattern pattern image
        | None => image
        end in
      (Returned (Some (_set_image_file_origin image path)), [])
  | FitsTypeError msg => (Returned None, [report_fs_error path msg])
  | FitsRaised error =>
      if isinstance error OSError
      then (Returned None, [report_fs_error path (exn_str error)])
      else (Raised error, [])
  end.

(** [str(image.origin)] inside the list of message arguments. *)
Definition origin_str (image : Image) : string :=
  from_option id "None" (origin image).

(** [read_disk_image]: the outcome and the messages sent to the hub. *)
Definition read_disk_image (dec : Decoders) (path : Path)
  : result (option Image) * list Message :=
  let ignore_image :=
    ignore_loop _IGNORED_FILENAME_START_PATTERNS (path_name path) in
  if negb ignore_image then
    let '(r, msgs) :=
      if bool_decide (lower (path_suffix path) ∈ [".fit"; ".fits"; ".fts"])
      then _read_fit_image (path_resolve path) (fits_open dec (path_resolve path))
      else _read_raw_image (path_resolve path) (imread dec (path_resolve path)) in
    match r with
    | Returned (Some image) =>
        (Returned (Some image),
         msgs ++ [Msg LevelInfo "Successful image read from {}" [origin_str image]])
    | _ => (r, msgs)
    end
  else (Returned None, []).

(** [InputScanner.broadcast_image]: the images the signal carries. *)
Definition broadcast_image (image : option Image) : list Image :=
  match image with
  | Some i => [i]
  | None => []
  end.

(** The [while file_is_incomplete] loop of [FolderScanner.on_created].
    [size_at k] is what [QFileInfo(image_path).size()] answers at the reading
    that follows [k] sleeps of [_DEFAULT_SCAN_FILE_SIZE_RETRY_PERIOD_IN_SEC];
    [last_file_size] starts at -1. The result is the number of sleeps after
    which the file counts as complete, or [None] when [rounds] readings were
    not enough. *)
Fixpoint wait_until_complete (rounds : nat) (size_at : nat → Z) (k : nat)
    (last_file_size : Z) : option nat :=
  match rounds with
  | 0 => None
  | S rounds' =>
      let size := size_at k in
      if (size =? last_file_size)%Z then Some k
      else wait_until_complete rounds' size_at (k + 1) size
  end.

End ImageReader.

(** ** [input.py]: the observers a folder scanner leaves behind *)

Module Observers.

(** A scanner together with the observers its starts have replaced.
    [self._observer = PollingObserver()] on line 190 rebinds the attribute
    and stops nothing: the observer it referred to, when it lives, keeps
    watching the scan folder with the scanner as its handler. *)
Record Tracked := {
  scanner : Scanner.InputScanner;
  replaced : list Scanner.PollingObserver
}.

(** The observer that a start takes the attribute from. Line 190 comes
    before the calls that can raise, so it does whether the start succeeds
    or not. *)
Definition released (self : Scanner.InputScanner)
  : list Scanner.PollingObserver :=
  match self with
  | Scanner.FolderScanner (Some observer) => [observer]
  | _ => []
  end.

(** [start] *)
Definition start (w : World) (t : Tracked) : result unit * Tracked :=
  let '(r, self) := Scanner.start w (scanner t) in
  (r, {| scanner := self; replaced := replaced t ++ released (scanner t) |}).

(** [stop] reaches the observer that [_observer] refers to and no other. *)
Definition stop (t : Tracked) : Tracked :=
  {| scanner := Scanner.stop (scanner t); replaced := replaced t |}.

(** Do files of the scan folder, or images of the server, still reach the
    scanner: through what it holds, or through an observer it held. *)
Definition delivers (t : Tracked) : bool :=
  Scanner.is_scanning (scanner t) || existsb Scanner.alive (replaced t).

End Observers.

(** ** [logic.py]: processing on demand and saving *)

Module Saving.
Import Stdlib.Strings.Ascii.
Import Controller.
Local Open Scope M_scope.

Definition set_destination (d : string) (i : Image) : Image :=
  {| data := data i; bayer_pattern := bayer_pattern i;
     origin := origin i; destination := Some d |}.

(** [Controller.apply_processing] *)
Definition apply_processing : M unit :=
  st ← gets _stacker;
  q ← gets (λ s, process_queue (DYNAMIC_DATA s));
  if (0 <? size st) && (qsize q =? 0) then
    last ← gets _last_stacking_result;
    match last with
    | None =>
        raise (Exn AttributeError ["'NoneType' object has no attribute 'clone'"])
    | Some l =>
        c ← clone l;
        queue_put PostProcessQueue c
    end
  else ret ().

(** [s.replace(old, new)] for one-character [old] and [new]. *)
Fixpoint replace (old new : Ascii.ascii) (s : string) : string :=
  match s with
  | EmptyString => EmptyString
  | String c s' =>
      String (if Ascii.eqb c old then new else c) (replace old new s')
  end.

(** The file name base of [save_image]; [timestamp] is what
    [get_timestamp()] returns at the call. *)
Definition timestamped (timestamp filename_base : string) : string :=
  filename_base +:+ "-" +:+
    replace "."%char "-"%char
      (replace ":"%char "-"%char (replace " "%char "-"%char timestamp)).

(** [Controller.save_image]; [None] for [image] is Python's [None]. *)
Definition save_image (timestamp : string) (image : option loc)
    (file_extension dest_folder_path filename_base : string)
    (add_timestamp : bool) : M unit :=
  let filename_base :=
    if add_timestamp then timestamped timestamp filename_base
    else filename_base in
  match image with
  | None =>
      raise (Exn AttributeError ["'NoneType' object has no attribute 'clone'"])
  | Some image =>
      image_to_save ← clone image;
      modify (with_heap
                (alter (set_destination
                          (dest_folder_path +:+ "/" +:+ filename_base
                             +:+ "." +:+ file_extension))
                   image_to_save));;
      queue_put SaverQueue image_to_save
  end.

(** What [save_post_process_result] reads besides the state: the save format
    of the configuration, three constants of [als.model.data] (taken as
    parameters), the clock, [DYNAMIC_DATA.post_processor_result] and the
    controller's [_save_every_image]. *)
Record SaveContext := {
  get_image_save_format : string;
  STACKED_IMAGE_FILE_NAME_BASE : string;
  IMAGE_SAVE_TYPE_JPEG : string;
  WEB_SERVED_IMAGE_FILE_NAME_BASE : string;
  get_timestamp : string;
  post_processor_result : option loc;
  _save_every_image : bool
}.

(** [Controller.save_post_process_result] *)
Definition save_post_process_result (cfg : Config) (ctx : SaveContext)
    (final : bool) : M unit :=
  let image := post_processor_result ctx in
  save_image (get_timestamp ctx) image
    (get_image_save_format ctx)
    (get_work_folder_path cfg)
    (STACKED_IMAGE_FILE_NAME_BASE ctx +:+ (if final then "_final" else EmptyString))
    final;;
  if negb final then
    save_image (get_timestamp ctx) image
      (IMAGE_SAVE_TYPE_JPEG ctx)
      (get_web_folder_path cfg)
      (WEB_SERVED_IMAGE_FILE_NAME_BASE ctx)
      false;;
    if _save_every_image ctx then
      save_image (get_timestamp ctx) image
        (get_image_save_format ctx)
        (get_work_folder_path cfg)
        (STACKED_IMAGE_FILE_NAME_BASE ctx)
        true
    else ret ()
  else ret ().

End Saving.

(** ** [logic.py]: the web server *)

Module Www.

(** The part of the state [start_www] and [stop_www] work on: the
    controller's [_web_server] (a server object knows the folder it serves),
    two attributes of [DYNAMIC_DATA], and the message hub. *)
Record WebState := {
  _web_server : option string;
  web_server_is_running : bool;
  web_server_ip : option string;
  hub : list Message
}.

(** What the outside world answers to [start_www]. *)
Record WebWorld := {
  web_folder_path : string;
  get_ip : string;
  get_www_server_port_number : string;
  (** [Some msg] when [WebServer.start()] raises [OSError(msg)] *)
  server_start_error : option string;
  (** [QCoreApplication.translate] *)
  translate : string → string
}.

(** [Controller.start_www] *)
Definition start_www (w : WebWorld) (s : WebState) : result unit * WebState :=
  let s1 := {| _web_server := Some (web_folder_path w);
               web_server_is_running := web_server_is_running s;
               web_server_ip := web_server_ip s;
               hub := hub s |} in
  match server_start_error w with
  | None =>
      let url := "http://" +:+ get_ip w +:+ ":" +:+ get_www_server_port_number w in
      (Returned (),
       {| _web_server := _web_server s1;
          web_server_is_running := true;
          web_server_ip := Some (get_ip w);
          hub := hub s1 ++ [Msg LevelInfo "Web server started. Reachable at {}" [url]] |})
  | Some os_error =>
      let log_message := "Could not start web server : {}" in
      let error_title := translate w "Could not start web server" in
      (Raised (Exn WebServerStartFailure [error_title; os_error]),
       {| _web_server := _web_server s1;
          web_server_is_running := web_server_is_running s1;
          web_server_ip := web_server_ip s1;
          hub := hub s1 ++ [Msg LevelError log_message [os_error]] |})
  end.

(** [Controller.stop_www] *)
Definition stop_www (s : WebState) : WebState :=
  match _web_server s with
  | Some _ =>
      if web_server_is_running s then
        {| _web_server := None;
           web_server_is_running := false;
           web_server_ip := web_server_ip s;
           hub := hub s ++ [Msg LevelInfo "Web server stopped" []] |}
      else s
  | None => s
  end.

End Www.

(** ** Calls on the controller, one after the other *)

(** The calls of this model that a caller, the scanner or a worker makes on
    the controller. *)
Inductive call :=
| CallStart (w : World)
| CallStop
| CallPause
| CallNewImageRead (image : loc)
| CallNewPreProcessedImage (image : loc)
| CallNewStackResult (image : loc)
| CallApplyProcessing
| CallSaveImage (timestamp : string) (image : loc)
    (file_extension dest_folder_path filename_base : string)
    (add_timestamp : bool).

Definition run_call (c : call) : M unit :=
  match c with
  | CallStart w => Controller.start_session w
  | CallStop => Controller.stop_session
  | CallPause => Controller.pause_session
  | CallNewImageRead image => Controller.on_new_image_read image
  | CallNewPreProcessedImage image => Controller.on_new_pre_processed_image image
  | CallNewStackResult image => Controller.on_new_stack_result image
  | CallApplyProcessing => Saving.apply_processing
  | CallSaveImage timestamp image ext folder base add =>
      Saving.save_image timestamp (Some image) ext folder base add
  end.

(** The state after a sequence of calls; a call left by an exception does
    not keep the caller from making the next one. *)
Fixpoint run_calls (cs : list call) (s : State) : State :=
  match cs with
  | [] => s
  | c :: cs' => run_calls cs' (run_call c s).2
  end.

(** The image a call hands over. *)
Definition call_image (c : call) : option loc :=
  match c with
  | CallNewImageRead image | CallNewPreProcessedImage image
  | CallNewStackResult image => Some image
  | CallSaveImage _ image _ _ _ _ => Some image
  | _ => None
  end.

(** Every reference the controller holds, in a queue or as last stacking
    result, is to an object of the heap. *)
Definition references_live (s : State) : Prop :=
  (∀ q l, l ∈ queue q (DYNAMIC_DATA s) → l ∈ dom (heap s)) ∧
  (∀ l, _last_stacking_result s = Some l → l ∈ dom (heap s)).

(** The object kept as last stacking result is in no queue. *)
Definition last_result_private (s : State) : Prop :=
  ∀ l q, _last_stacking_result s = Some l → l ∉ queue q (DYNAMIC_DATA s).

(** What a call needs from the state it is made in: the image it hands over
    is an object of the heap, and an image that goes into a queue as it is
    is not the object kept as last stacking result. *)
Definition call_ok (c : call) (s : State) : Prop :=
  (∀ l, call_image c = Some l → l ∈ dom (heap s)) ∧
  (∀ l, c = CallNewImageRead l ∨ c = CallNewPreProcessedImage l →
        _last_stacking_result s ≠ Some l).

Fixpoint calls_ok (cs : list call) (s : State) : Prop :=
  match cs with
  | [] => True
  | c :: cs' => call_ok c s ∧ calls_ok cs' (run_call c s).2
  end.

(** Every message of the list is an information. *)
Definition all_info (msgs : list Message) : Prop :=
  Forall (λ m, msg_level m = LevelInfo) msgs.

(** ** More concrete values for the examples *)

Module ExamplesMore.

(** The post-processing result is the image queued for post-processing in
    [Examples.session_at_work]; not every image is saved. *)
Definition save_context : Saving.SaveContext :=
  {| Saving.get_image_save_format := "tiff";
     Saving.STACKED_IMAGE_FILE_NAME_BASE := "stack_image";
     Saving.IMAGE_SAVE_TYPE_JPEG := "jpg";
     Saving.WEB_SERVED_IMAGE_FILE_NAME_BASE := "web_image";
     Saving.get_timestamp := "2019-11-30 21:04:05.123456";
     Saving.post_processor_result := Some 3%positive;
     Saving._save_every_image := false |}.

(** An INDI configuration whose server cannot be reached. *)
Definition world_indi_unreachable : World :=
  {| config :=
       {| get_input_system := "INDI";
          get_scan_folder_path := "/als/scan";
          get_work_folder_path := "/als/work";
          get_web_folder_path := "/als/web";
          get_indi_server := "localhost";
          get_indi_port := 7624 |};
     is_dir := λ _, true;
     web_content_error := None; observer_error := None;
     connectServer := false |}.

(** The web folder cannot be written to. *)
Definition world_web_fails : World :=
  {| config := Examples.cfg; is_dir := λ _, true;
     web_content_error :=
       Some "[Errno 13] Permission denied: '/als/web/index.html'";
     observer_error := None; connectServer := true |}.

(** [Examples.session_paused] with an INDI scanner, disconnected by the
    pause. *)
Definition session_paused_indi : State :=
  with_input_scanner
    (Some (Scanner.IndiScanner ("localhost", 7624%N) None false))
    Examples.session_paused.

(** The web server: nothing serves yet. *)
Definition web_idle : Www.WebState :=
  {| Www._web_server := None; Www.web_server_is_running := false;
     Www.web_server_ip := None; Www.hub := [] |}.

Definition web_world_ok : Www.WebWorld :=
  {| Www.web_folder_path := "/als/web"; Www.get_ip := "192.168.1.10";
     Www.get_www_server_port_number := "8000";
     Www.server_start_error := None;
     Www.translate := λ text, text |}.

(** The port is taken. *)
Definition web_world_port_taken : Www.WebWorld :=
  {| Www.web_folder_path := "/als/web"; Www.get_ip := "192.168.1.10";
     Www.get_www_server_port_number := "8000";
     Www.server_start_error := Some "[Errno 98] Address already in use";
     Www.translate := λ text, text |}.

(** A few calls on [Examples.session_at_work]: a stacking result arrives,
    the user asks for processing, the scanner hands over an image, the user
    stops the session. *)
Definition some_calls : list call :=
  [CallNewStackResult 2%positive; CallApplyProcessing;
   CallNewImageRead 1%positive; CallStop].

End ExamplesMore.

(** ** Facts about strings used as Python [str] *)

Section string_facts.
Implicit Types s t : string.

Lemma string_length_app s t :
  String.length (s +:+ t) = String.length s + String.length t.
Proof. induction s as [|c s IH]; simpl; [done | by rewrite IH]. Qed.

Lemma string_get_app_l n s t :
  n < String.length s → String.get n (s +:+ t) = String.get n s.
Proof.
  revert n; induction s as [|c s IH]; intros n Hn; simpl in *; [lia|].
  destruct n as [|n]; [done | apply IH; lia].
Qed.

Lemma string_get_app_r n s t :
  String.get (String.length s + n) (s +:+ t) = String.get n t.
Proof. induction s as [|c s IH]; simpl; done. Qed.

Lemma string_get_is_Some n s :
  n < String.length s → is_Some (String.get n s).
Proof.
  revert n; induction s as [|c s IH]; intros n Hn; simpl in *; [lia|].
  destruct n as [|n]; [by eexists | apply IH; lia].
Qed.
End string_facts.

(** ** The Bayer normalisation *)

Section bayer.
Import Input.
Variables (indices : list nat) (desc : string).

(** The loop started in the middle of the grid, at position [k], with
    [acc] already built: it ends normally, keeps [acc] and appends one
    character of the description per remaining index. *)
Lemma bayer_pattern_loop_ok :
  bayer_contract indices desc →
  ∀ (suffix : list nat) k acc,
    (∀ j index, suffix !! j = Some index → indices !! (k + j) = Some index) →
    ∃ out,
      bayer_pattern_loop indices desc (imap (λ j, pair (k + j)) suffix) acc
        = Returned out ∧
      String.length out = String.length acc + length suffix ∧
      (∀ j, j < String.length acc → String.get j out = String.get j acc) ∧
      (∀ j index, suffix !! j = Some index →
         ∃ c, String.get (String.length acc + j) out = Some c ∧
              String.get index desc = Some c).
Proof.
  intros [Hlen Hall] suffix.
  induction suffix as [|x suffix IH]; intros k acc Hsuf.
  - exists acc. simpl. split; [done|]. split; [lia|]. split; [done|].
    intros j index [=].
  - rewrite imap_cons. cbn [bayer_pattern_loop].
    pose proof (Hsuf 0 x eq_refl) as Hx. rewrite Hx.
    assert (x < length indices) as Hlt.
    { eapply (proj1 (Forall_lookup _ _) Hall); exact Hx. }
    apply Nat.ltb_lt in Hlt as Hltb. rewrite Hltb.
    destruct (string_get_is_Some x desc) as [c Hc]; [lia|]. rewrite Hc.
    destruct (IH (S k) (acc +:+ String c EmptyString)) as (out & Hrun & Hl & Hpre & Hget).
    { intros j index Hj. replace (S k + j) with (k + S j) by lia.
      by apply Hsuf. }
    exists out. split.
    { rewrite <- Hrun. f_equal. apply imap_ext. intros j y _. simpl.
      f_equal. lia. }
    rewrite string_length_app in Hl, Hpre, Hget. simpl in Hl, Hpre, Hget.
    split; [simpl; lia|]. split.
    + intros j Hj. rewrite Hpre; [|lia]. by apply string_get_app_l.
    + intros [|j] index Hj; simpl in Hj.
      * injection Hj as <-. exists c. split; [|done].
        rewrite Hpre; [|lia].
        by rewrite string_get_app_r.
      * destruct (Hget j index Hj) as (c' & Hc1 & Hc2).
        exists c'. split; [|done]. rewrite <- Hc1. f_equal. lia.
Qed.

(** When the lengths agree, the loop stops with [AssertionError] at the
    first index that is not below the number of cells. *)
Lemma bayer_pattern_loop_assert :
  length indices = String.length desc →
  ∀ (suffix : list nat) k acc,
    (∀ j index, suffix !! j = Some index → indices !! (k + j) = Some index) →
    ¬ Forall (λ index, index < length indices) suffix →
    bayer_pattern_loop indices desc (imap (λ j, pair (k + j)) suffix) acc
      = Raised (Exn AssertionError []).
Proof.
  intros Hlen suffix.
  induction suffix as [|x suffix IH]; intros k acc Hsuf Hbad.
  - destruct Hbad. constructor.
  - rewrite imap_cons. cbn [bayer_pattern_loop].
    rewrite (Hsuf 0 x eq_refl).
    destruct (x <? length indices) eqn:Hx; [|done].
    apply Nat.ltb_lt in Hx.
    destruct (string_get_is_Some x desc) as [c Hc]; [lia|]. rewrite Hc.
    rewrite <- (IH (S k) (acc +:+ String c EmptyString)).
    + f_equal. apply imap_ext. intros j y _. simpl. f_equal. lia.
    + intros j index Hj. replace (S k + j) with (k + S j) by lia.
      by apply Hsuf.
    + intros Htl. apply Hbad. by constructor.
Qed.
End bayer.

Section bayer_claims.
Import Input.

(** C1. For every index grid and description that satisfy the contract,
    the Bayer computation of [_read_raw_image] ends normally with a pattern
    as long as the grid, whose character at each position [i] is
    [description[indices[i]]]; for the grid [0,1,3,2] and the description
    RGBG the image read carries the pattern RGGB. *)
Theorem bayer_pattern_correct :
  (∀ (indices : list nat) (description : string),
     bayer_contract indices description →
     ∃ out,
       compute_bayer_pattern indices description = Returned out ∧
       String.length out = length indices ∧
       ∀ i index, indices !! i = Some index →
         ∃ c, String.get i out = Some c ∧
              String.get index description = Some c) ∧
  compute_bayer_pattern [0; 1; 3; 2] "RGBG" = Returned "RGGB" ∧
  ∀ path samples, ∃ image,
    (_read_raw_image path
       (ImreadOk {| raw_pattern := [0; 1; 3; 2]; color_desc := "RGBG";
                    raw_image_visible := samples |})).1
      = Returned (Some image) ∧
    bayer_pattern image = Some "RGGB".
Proof.
  split; [|split; [reflexivity | by eexists]].
  intros indices description Hc.
  destruct (bayer_pattern_loop_ok indices description Hc indices 0 EmptyString)
    as (out & Hrun & Hlen & _ & Hget); [done|].
  exists out. unfold compute_bayer_pattern.
  destruct Hc as [Hl _]. rewrite (proj2 (Nat.eqb_eq _ _) Hl).
  split; [exact Hrun|]. split; [exact Hlen|]. exact Hget.
Qed.

Lemma bayer_pattern_correct_witness :
  bayer_contract [2; 0; 1] "BRG" ∧
  ∃ out, compute_bayer_pattern [2; 0; 1] "BRG" = Returned out ∧
         String.length out = 3 ∧
         String.get 0 out = String.get 2 "BRG".
Proof.
  assert (bayer_contract [2; 0; 1] "BRG") as Hc.
  { split; [reflexivity|]. repeat constructor. }
  split; [exact Hc|].
  destruct (proj1 bayer_pattern_correct [2; 0; 1] "BRG" Hc)
    as (out & Hrun & Hlen & Hget).
  exists out. split; [exact Hrun|]. split; [exact Hlen|].
  destruct (Hget 0 2 eq_refl) as (c & -> & ->). reflexivity.
Defined.



End bayer_claims.

Section scanner_claims.
Import Scanner.

Lemma create_scanner_other (cfg : Config) (scanner_type : string) :
  scanner_type ≠ SCANNER_TYPE_FILESYSTEM →
  scanner_type ≠ SCANNER_TYPE_INDI →
  create_scanner cfg (Some scanner_type)
    = Raised (Exn ValueError ["Unsupported scanner type : " +:+ scanner_type]).
Proof.
  intros Hfs Hindi. unfold create_scanner. simpl.
  destruct (String.eqb_spec scanner_type SCANNER_TYPE_FILESYSTEM) as [->|_];
    [done|].
  destruct (String.eqb_spec scanner_type SCANNER_TYPE_INDI) as [->|_]; done.
Qed.

(** C10. [create_scanner] returns a [FolderScanner] for the type FS and an
    [IndiScanner] for the type INDI, raises [ValueError] for every other
    string, and without argument behaves as for INDI. *)
Theorem create_scanner_cases (cfg : Config) :
  create_scanner cfg (Some "FS") = Returned (FolderScanner None) ∧
  create_scanner cfg (Some "INDI")
    = Returned (IndiScanner (get_indi_server cfg, get_indi_port cfg) None false) ∧
  (∀ scanner_type : string,
     scanner_type ≠ "FS" → scanner_type ≠ "INDI" →
     create_scanner cfg (Some scanner_type)
       = Raised (Exn ValueError ["Unsupported scanner type : " +:+ scanner_type])) ∧
  create_scanner cfg None = create_scanner cfg (Some "INDI").
Proof.
  split; [reflexivity|]. split; [reflexivity|]. split; [|reflexivity].
  intros scanner_type Hfs Hindi. by apply create_scanner_other.
Qed.

Lemma create_scanner_cases_witness :
  create_scanner Examples.cfg (Some "fs")
    = Raised (Exn ValueError ["Unsupported scanner type : fs"]).
Proof.
  apply (proj1 (proj2 (proj2 (create_scanner_cases Examples.cfg))) "fs");
    discriminate.
Defined.
End scanner_claims.

(** ** The backpressure gate *)

Section gate.
Variable observe : nat → DynamicData.

Lemma wait_condition_false d : wait_condition d = false ↔ gate_clear d.
Proof.
  unfold wait_condition, gate_clear, is_stopped, qsize.
  destruct (decide (session d = stopped)) as [Hs|Hs].
  - rewrite (bool_decide_eq_true_2 _ Hs). simpl. by split; [left|].
  - rewrite (bool_decide_eq_false_2 _ Hs). simpl.
    destruct (stacker_busy d), (pre_processor_busy d),
      (stacker_queue d), (pre_process_queue d); simpl;
      intuition (try done).
Qed.

Lemma wait_condition_true d : wait_condition d = true ↔ ¬ gate_clear d.
Proof.
  rewrite <- wait_condition_false. by destruct (wait_condition d).
Qed.

(** The call returns at the first evaluation that finds the gate clear. *)
Lemma wait_for_resources_first_clear rounds now k :
  k < rounds →
  gate_clear (observe (now + k)) →
  (∀ u, u < k → ¬ gate_clear (observe (now + u))) →
  wait_for_resources rounds observe now = Some (now + k).
Proof.
  revert now k. induction rounds as [|rounds IH]; intros now k Hk Hclear Hbusy;
    [lia|].
  simpl. destruct k as [|k].
  - rewrite Nat.add_0_r in *.
    by rewrite (proj2 (wait_condition_false _) Hclear).
  - rewrite (proj2 (wait_condition_true _)).
    + replace (now + S k) with (now + 1 + k) by lia. apply IH; [lia|..].
      * by replace (now + 1 + k) with (now + S k) by lia.
      * intros u Hu. replace (now + 1 + u) with (now + S u) by lia.
        apply Hbusy. lia.
    + specialize (Hbusy 0). rewrite Nat.add_0_r in Hbusy. apply Hbusy. lia.
Qed.

(** As long as every evaluation finds an indicator set, the call goes on
    sleeping. *)
Lemma wait_for_resources_blocked rounds now :
  (∀ u, u < rounds → ¬ gate_clear (observe (now + u))) →
  wait_for_resources rounds observe now = None.
Proof.
  revert now. induction rounds as [|rounds IH]; intros now Hbusy; [done|].
  simpl. rewrite (proj2 (wait_condition_true _)).
  - apply IH. intros u Hu. replace (now + 1 + u) with (now + S u) by lia.
    apply Hbusy. lia.
  - specialize (Hbusy 0). rewrite Nat.add_0_r in Hbusy. apply Hbusy. lia.
Qed.

Lemma wait_for_resources_returned rounds now t :
  wait_for_resources rounds observe now = Some t →
  ∃ k, t = now + k ∧ k < rounds ∧ gate_clear (observe t) ∧
       ∀ u, u < k → ¬ gate_clear (observe (now + u)).
Proof.
  revert now. induction rounds as [|rounds IH]; intros now Hret; [done|].
  simpl in Hret. destruct (wait_condition (observe now)) eqn:Hc.
  - destruct (IH _ Hret) as (k & -> & Hk & Hclear & Hbusy).
    exists (S k). split; [lia|]. split; [lia|]. split; [done|].
    intros [|u] Hu.
    + rewrite Nat.add_0_r. by apply wait_condition_true.
    + replace (now + S u) with (now + 1 + u) by lia. apply Hbusy. lia.
  - injection Hret as <-. exists 0. rewrite Nat.add_0_r.
    split; [done|]. split; [lia|]. split; [by apply wait_condition_false|].
    intros u Hu. lia.
Qed.

(** C5. [wait_for_resources], called at time 0 and evaluating its condition
    once per second, returns exactly at the first evaluation that finds the
    session stopped or all four downstream indicators clear: it returns then
    (given rounds enough to get there), it returns at no other moment, and
    while every evaluation finds the session not stopped and an indicator
    set it does not return. *)
Theorem wait_for_resources_returns_when_clear :
  (∀ rounds t,
     t < rounds →
     gate_clear (observe t) →
     (∀ u, u < t → ¬ gate_clear (observe u)) →
     wait_for_resources rounds observe 0 = Some t) ∧
  (∀ rounds t,
     wait_for_resources rounds observe 0 = Some t →
     gate_clear (observe t) ∧ ∀ u, u < t → ¬ gate_clear (observe u)) ∧
  (∀ rounds,
     (∀ u, u < rounds → ¬ gate_clear (observe u)) →
     wait_for_resources rounds observe 0 = None).
Proof.
  split; [|split].
  - intros rounds t Ht Hclear Hbusy.
    apply (wait_for_resources_first_clear rounds 0 t); done.
  - intros rounds t Hret.
    destruct (wait_for_resources_returned _ _ _ Hret)
      as (k & -> & _ & Hclear & Hbusy).
    split; [done|]. intros u Hu. apply (Hbusy u Hu).
  - intros rounds Hbusy. by apply wait_for_resources_blocked.
Qed.
End gate.

Lemma wait_for_resources_returns_when_clear_witness :
wait_for_resources 10 Examples.busy_two_seconds 0 = Some 2.
Proof.
apply (proj1 (wait_for_resources_returns_when_clear Examples.busy_two_seconds)).
- lia.
- right. by vm_compute.
- intros u Hu [Hs|(_ & _ & _ & Hb)]; [discriminate Hs|].
  unfold Examples.busy_two_seconds in Hb. simpl in Hb.
  apply Nat.ltb_ge in Hb. lia.
Defined.

(** ** The controller *)

Section controller.
Import Scanner Controller.

Ltac unfold_M :=
  unfold try_except, bind, ret, raise, lift, gets, modify in *.

Ltac unfold_calls :=
  unfold start_session, stop_session, pause_session, _stop_input_scanner,
    input_scanner_start, _setup_web_content, on_new_stack_result,
    purge_queue, queue_put, dispatch_info, dispatch_error in *.

(** Two states with the same components are the same state. *)
Lemma State_eq (s1 s2 : State) :
  DYNAMIC_DATA s1 = DYNAMIC_DATA s2 →
  MESSAGE_HUB s1 = MESSAGE_HUB s2 →
  heap s1 = heap s2 →
  _input_scanner s1 = _input_scanner s2 →
  _stacker s1 = _stacker s2 →
  _last_stacking_result s1 = _last_stacking_result s2 →
  s1 = s2.
Proof. destruct s1, s2; simpl; congruence. Qed.

Lemma DynamicData_eq (d1 d2 : DynamicData) :
  session d1 = session d2 →
  has_new_warnings d1 = has_new_warnings d2 →
  pre_processor_busy d1 = pre_processor_busy d2 →
  stacker_busy d1 = stacker_busy d2 →
  post_processor_busy d1 = post_processor_busy d2 →
  saver_busy d1 = saver_busy d2 →
  (∀ q, queue q d1 = queue q d2) →
  d1 = d2.
Proof.
  intros ?????? Hq. pose proof (Hq PreProcessQueue). pose proof (Hq StackerQueue).
  pose proof (Hq PostProcessQueue). pose proof (Hq SaverQueue).
  destruct d1, d2; simpl in *; congruence.
Qed.

(** Equality of two outcome-and-state pairs, component by component. *)
Ltac state_eq :=
  f_equal; apply State_eq; simpl; try reflexivity.

Lemma drain_empty content : drain content = [].
Proof. induction content as [|item content IH]; [done | exact IH]. Qed.

Lemma is_stopped_true d : session d = stopped → is_stopped d = true.
Proof. intros H. by apply bool_decide_eq_true_2. Qed.

Lemma is_stopped_false d : session d ≠ stopped → is_stopped d = false.
Proof. intros H. by apply bool_decide_eq_false_2. Qed.

Lemma stop_not_scanning sc : is_scanning (stop sc) = false.
Proof. by destruct sc as [[o|]|srv dev []]. Qed.

Lemma create_scanner_supported cfg t :
  t ∈ [SCANNER_TYPE_FILESYSTEM; SCANNER_TYPE_INDI] →
  ∃ sc, create_scanner cfg (Some t) = Returned sc ∧ is_scanning sc = false.
Proof.
  intros Ht. apply elem_of_cons in Ht as [->|Ht]; [by eexists|].
  apply list_elem_of_singleton in Ht as ->. by eexists.
Qed.

Lemma create_scanner_unsupported cfg t :
  t ∉ [SCANNER_TYPE_FILESYSTEM; SCANNER_TYPE_INDI] →
  ∃ e, create_scanner cfg (Some t) = Raised e ∧ exn_cls e = ValueError.
Proof.
  intros Ht. rewrite create_scanner_other.
  - by eexists.
  - intros ->. apply Ht. set_solver.
  - intros ->. apply Ht. set_solver.
Qed.

(** *** [clone] and [on_new_stack_result] *)

Lemma clone_run image v s :
  heap s !! image = Some v →
  clone image s
    = (Returned (fresh (dom (heap s))),
       with_heap (insert (fresh (dom (heap s))) v) s).
Proof. intros Hv. unfold clone, with_heap. by rewrite Hv. Qed.

(** C9. After [on_new_stack_result] has run on a stacking result, the
    post-process queue holds exactly one item; that item is an object
    created during the call (so it is neither the result itself, nor the
    copy kept as last stacking result, nor anything queued before) and its
    content is the content of the stacking result. *)
Theorem on_new_stack_result_replaces_queue
    (s : State) (image : loc) (v : Image)
    (Himage : heap s !! image = Some v) :
  (on_new_stack_result image s).1 = Returned () ∧
  ∃ c,
    process_queue (DYNAMIC_DATA (on_new_stack_result image s).2) = [c] ∧
    (c ∉ dom (heap s)) ∧
    c ≠ image ∧
    _last_stacking_result (on_new_stack_result image s).2 ≠ Some c ∧
    heap (on_new_stack_result image s).2 !! c
      = Some (set_origin "Stacking result" v) ∧
    heap (on_new_stack_result image s).2 !! image
      = Some (set_origin "Stacking result" v).
Proof.
  set (v' := set_origin "Stacking result" v).
  set (h1 := alter (set_origin "Stacking result") image (heap s)).
  assert (h1 !! image = Some v') as Hh1.
  { unfold h1. by rewrite lookup_alter_eq, Himage. }
  set (c1 := fresh (dom h1)).
  set (h2 := <[c1 := v']> h1).
  assert (c1 ≠ image) as Hc1.
  { intros Heq. apply (is_fresh (dom h1)). fold c1. rewrite Heq.
    apply elem_of_dom. by eexists. }
  assert (h2 !! image = Some v') as Hh2.
  { unfold h2. by rewrite lookup_insert_ne. }
  set (c2 := fresh (dom h2)).
  assert (c2 ∉ dom h2) as Hc2 by apply is_fresh.
  assert (on_new_stack_result image s
          = (Returned (),
             {| DYNAMIC_DATA :=
                  set_queue PostProcessQueue [c2] (DYNAMIC_DATA s);
                MESSAGE_HUB := MESSAGE_HUB s;
                heap := <[c2 := v']> h2;
                _input_scanner := _input_scanner s;
                _stacker := _stacker s;
                _last_stacking_result := Some c1 |})) as ->.
  { unfold_calls. unfold clone. unfold_M. simpl.
    state_eq.
    - fold h1. rewrite Hh1. simpl. fold c1 h2 c2.
      apply DynamicData_eq; simpl; try reflexivity.
      intros []; simpl; try reflexivity. by rewrite drain_empty.
    - fold h1. rewrite Hh1. simpl. fold c1 h2. rewrite Hh2. simpl.
      by fold c2. }
  simpl. split; [done|]. exists c2.
  unfold h2 in Hc2. rewrite dom_insert_L in Hc2. unfold h1 in Hc2.
  rewrite dom_alter_L in Hc2.
  assert (image ∈ dom (heap s)) by (apply elem_of_dom; by eexists).
  assert (c2 ≠ c1 ∧ c2 ∉ dom (heap s)) as [Hc21 Hc2s].
  { split; [intros Heq | intros Hin]; apply Hc2.
    - apply elem_of_union_l, elem_of_singleton, Heq.
    - apply elem_of_union_r, Hin. }
  assert (c2 ≠ image) as Hc2i by (intros Heq; apply Hc2s; by rewrite Heq).
  split; [done|]. split; [exact Hc2s|]. split; [exact Hc2i|].
  split; [congruence|].
  split; [by rewrite lookup_insert_eq|].
  by rewrite lookup_insert_ne.
Qed.

Lemma on_new_stack_result_replaces_queue_witness :
  ∃ c,
    process_queue
      (DYNAMIC_DATA (on_new_stack_result 5%positive Examples.session_at_work).2)
      = [c] ∧
    c ≠ 3%positive ∧
    heap (on_new_stack_result 5%positive Examples.session_at_work).2 !! c
      = Some (set_origin "Stacking result" (Examples.frame 5)).
Proof.
  assert (heap Examples.session_at_work !! 5%positive = Some (Examples.frame 5))
    as Himage by (vm_compute; reflexivity).
  destruct (on_new_stack_result_replaces_queue
              Examples.session_at_work 5%positive (Examples.frame 5) Himage)
    as (_ & c & Hq & Hfresh & _ & _ & Hc & _).
  exists c. split; [exact Hq|]. split; [|exact Hc].
  intros ->. apply Hfresh. apply elem_of_dom. eexists. vm_compute. reflexivity.
Defined.

(** *** [stop_session] *)

(** What [stop_session] does to a session that is not stopped and has a
    scanner: the whole state it leaves. *)
Lemma stop_session_run (s : State) (sc : InputScanner) :
  session (DYNAMIC_DATA s) ≠ stopped →
  _input_scanner s = Some sc →
  stop_session s
    = (Returned (),
       {| DYNAMIC_DATA :=
            {| session := stopped;
               has_new_warnings := has_new_warnings (DYNAMIC_DATA s);
               pre_processor_busy := pre_processor_busy (DYNAMIC_DATA s);
               stacker_busy := stacker_busy (DYNAMIC_DATA s);
               post_processor_busy := post_processor_busy (DYNAMIC_DATA s);
               saver_busy := saver_busy (DYNAMIC_DATA s);
               pre_process_queue := [];
               stacker_queue := [];
               process_queue := [];
               save_queue := save_queue (DYNAMIC_DATA s) |};
          MESSAGE_HUB :=
            (MESSAGE_HUB s ++ [Msg LevelInfo "Input scanner stopped" []])
              ++ [Msg LevelInfo "Session stopped" []];
          heap := heap s;
          _input_scanner := Some (stop sc);
          _stacker := _stacker s;
          _last_stacking_result := _last_stacking_result s |}).
Proof.
  intros Hs Hsc. unfold_calls. unfold_M. simpl.
  rewrite (is_stopped_false _ Hs). simpl. rewrite Hsc. simpl.
  state_eq. apply DynamicData_eq; simpl; try reflexivity.
  intros []; simpl; try reflexivity; apply drain_empty.
Qed.

(** A stopped session is left as it is. *)
Lemma stop_session_stopped (s : State) :
  session (DYNAMIC_DATA s) = stopped → stop_session s = (Returned (), s).
Proof.
  intros Hs. unfold_calls. unfold_M. simpl. by rewrite (is_stopped_true _ Hs).
Qed.

(** Without a scanner object the call is left by [AttributeError] right
    after the status was written. *)
Lemma stop_session_no_scanner (s : State) :
  session (DYNAMIC_DATA s) ≠ stopped →
  _input_scanner s = None →
  stop_session s
    = (Raised (Exn AttributeError ["'NoneType' object has no attribute 'stop'"]),
       with_DYNAMIC_DATA (set_status stopped) s).
Proof.
  intros Hs Hsc. unfold_calls. unfold_M. simpl.
  rewrite (is_stopped_false _ Hs). simpl. by rewrite Hsc.
Qed.

(** C4, as the code has it. [stop_session], invoked while the session is
    running or paused (and so has a scanner), returns normally, sets the
    status to stopped, stops the input scanner, and purges the pre-process,
    stacker and post-process queues, each of which is empty afterwards; the
    saver queue is not purged and keeps its content. *)
Theorem stop_session_stops_and_purges
    (s : State) (sc : InputScanner)
    (Hactive : session (DYNAMIC_DATA s) = running ∨
               session (DYNAMIC_DATA s) = paused)
    (Hscanner : _input_scanner s = Some sc) :
  (stop_session s).1 = Returned () ∧
  session (DYNAMIC_DATA (stop_session s).2) = stopped ∧
  _input_scanner (stop_session s).2 = Some (stop sc) ∧
  is_scanning (stop sc) = false ∧
  pre_process_queue (DYNAMIC_DATA (stop_session s).2) = [] ∧
  stacker_queue (DYNAMIC_DATA (stop_session s).2) = [] ∧
  process_queue (DYNAMIC_DATA (stop_session s).2) = [] ∧
  save_queue (DYNAMIC_DATA (stop_session s).2) = save_queue (DYNAMIC_DATA s).
Proof.
  rewrite (stop_session_run s sc); [|destruct Hactive; congruence|done].
  simpl. repeat split; try done. apply stop_not_scanning.
Qed.

Lemma stop_session_stops_and_purges_witness :
  session (DYNAMIC_DATA (stop_session Examples.session_paused).2) = stopped ∧
  pre_process_queue (DYNAMIC_DATA (stop_session Examples.session_paused).2) = [] ∧
  stacker_queue (DYNAMIC_DATA (stop_session Examples.session_paused).2) = [] ∧
  process_queue (DYNAMIC_DATA (stop_session Examples.session_paused).2) = [] ∧
  save_queue (DYNAMIC_DATA (stop_session Examples.session_paused).2)
    = [4%positive].
Proof.
  destruct (stop_session_stops_and_purges Examples.session_paused
              (FolderScanner None) (or_intror eq_refl) eq_refl)
    as (_ & Hst & _ & _ & Hq1 & Hq2 & Hq3 & Hq4).
  repeat split; assumption.
Defined.

(** C4, counterexample. In a running session with one image in each of the
    four queues, [stop_session] returns normally and the saver queue still
    holds its image: not every queue was purged. *)
Lemma stop_session_keeps_saver_queue :
  session (DYNAMIC_DATA Examples.session_at_work) = running ∧
  (stop_session Examples.session_at_work).1 = Returned () ∧
  queue SaverQueue (DYNAMIC_DATA (stop_session Examples.session_at_work).2)
    = [4%positive] ∧
  ¬ Forall
      (λ q, queue q (DYNAMIC_DATA (stop_session Examples.session_at_work).2) = [])
      all_queues.
Proof.
  split; [reflexivity|]. split; [reflexivity|]. split; [reflexivity|].
  intros Hall. apply (proj1 (Forall_forall _ _)) with (x := SaverQueue) in Hall.
  - discriminate Hall.
  - unfold all_queues. set_solver.
Qed.

(** *** [pause_session] *)

Lemma pause_session_not_running (s : State) :
  session (DYNAMIC_DATA s) ≠ running →
  pause_session s
    = (Returned (),
       with_DYNAMIC_DATA (set_status paused)
         (with_MESSAGE_HUB (λ hub, hub ++ [Msg LevelInfo "Session paused" []]) s)).
Proof.
  intros Hs. unfold_calls. unfold_M. simpl.
  unfold is_running. by rewrite (bool_decide_eq_false_2 _ Hs).
Qed.

Lemma pause_session_running (s : State) (sc : InputScanner) :
  session (DYNAMIC_DATA s) = running →
  _input_scanner s = Some sc →
  pause_session s
    = (Returned (),
       with_DYNAMIC_DATA (set_status paused)
         (with_MESSAGE_HUB
            (λ hub, (hub ++ [Msg LevelInfo "Input scanner stopped" []])
                      ++ [Msg LevelInfo "Session paused" []])
            (with_input_scanner (Some (stop sc)) s))).
Proof.
  intros Hs Hsc. unfold_calls. unfold_M. simpl.
  unfold is_running. rewrite (bool_decide_eq_true_2 _ Hs). simpl.
  by rewrite Hsc.
Qed.

(** C2, the failing request. [pause_session] on a stopped session returns
    normally and leaves the session paused: a transition from stopped to
    paused, which the state machine does not have. Only the stopping of the
    scanner is guarded by the test on the running status; the status is
    written in every case. *)
Theorem pause_session_while_stopped
    (s : State) (Hstopped : session (DYNAMIC_DATA s) = stopped) :
  (pause_session s).1 = Returned () ∧
  session (DYNAMIC_DATA (pause_session s).2) = paused ∧
  ¬ legal_transition (session (DYNAMIC_DATA s))
      (session (DYNAMIC_DATA (pause_session s).2)).
Proof.
  rewrite pause_session_not_running by congruence. simpl.
  rewrite Hstopped. by repeat split.
Qed.

Lemma pause_session_while_stopped_witness :
  session (DYNAMIC_DATA Examples.new_controller) = stopped ∧
  (pause_session Examples.new_controller).1 = Returned () ∧
  session (DYNAMIC_DATA (pause_session Examples.new_controller).2) = paused.
Proof.
  split; [reflexivity|].
  destruct (pause_session_while_stopped Examples.new_controller eq_refl)
    as (Hret & Hpaused & _).
  split; assumption.
Defined.

(** After that request a new controller has no scanner, and the start
    that follows takes the branch of a paused session and is left by an
    [AttributeError], not by a session error. *)
Lemma start_after_pause_while_stopped :
  (start_session Examples.world_ok
     (pause_session Examples.new_controller).2).1
  = Raised (Exn AttributeError ["'NoneType' object has no attribute 'start'"]).
Proof. reflexivity. Qed.

(** *** [start_session] *)

(** Case analysis over every branch a call of [start_session] can take. *)
Ltac all_cases :=
  repeat (case_match; simpl in *; simplify_eq; try done).

Ltac start_cases :=
  unfold_calls; unfold check_folders, folders_dict, Scanner.start;
  unfold_M; simpl; all_cases.

Lemma scanner_start_raised (w : World) (sc : InputScanner) (e : exn) :
  (start w sc).1 = Raised e →
  ∃ o msg, sc = FolderScanner o ∧ observer_error w = Some msg ∧
           e = Exn ScannerStartError [msg].
Proof.
  unfold start. intros He. destruct sc as [o|srv dev connected].
  - destruct (observer_error w) as [msg|] eqn:Hobs; [|discriminate He].
    injection He as <-. by exists o, msg.
  - by destruct connected.
Qed.

Lemma folders_present (w : World) :
  (∀ role path, (role, path) ∈ folders_dict (config w) → is_dir w path = true) →
  is_dir w (get_scan_folder_path (config w)) = true ∧
  is_dir w (get_work_folder_path (config w)) = true ∧
  is_dir w (get_web_folder_path (config w)) = true.
Proof.
  intros Hall. unfold folders_dict in Hall.
  split; [|split].
  - apply (Hall "scan"). apply list_elem_of_here.
  - apply (Hall "work"). apply list_elem_of_further, list_elem_of_here.
  - apply (Hall "web").
    apply list_elem_of_further, list_elem_of_further, list_elem_of_here.
Qed.

Lemma folders_absent (w : World) :
  folder_missing w →
  is_dir w (get_scan_folder_path (config w)) = false ∨
  is_dir w (get_work_folder_path (config w)) = false ∨
  is_dir w (get_web_folder_path (config w)) = false.
Proof.
  intros (role & path & Hin & Hdir). unfold folders_dict in Hin.
  apply elem_of_cons in Hin as [[= -> ->]|Hin]; [by left|].
  apply elem_of_cons in Hin as [[= -> ->]|Hin]; [by right; left|].
  apply list_elem_of_singleton in Hin as [= -> ->]. by right; right.
Qed.

(** The status after the call: running when it returned, as before when
    it was left by an exception. *)
Lemma start_session_status (w : World) (s : State) :
  session (DYNAMIC_DATA (start_session w s).2)
  = match (start_session w s).1 with
    | Returned _ => running
    | Raised _ => session (DYNAMIC_DATA s)
    end.
Proof. start_cases. Qed.

Lemma start_session_stacker_restart (w : World) (s : State) :
  session (DYNAMIC_DATA s) ≠ stopped →
  _stacker (start_session w s).2 = _stacker s.
Proof.
  intros Hs. unfold start_session. unfold_M. simpl.
  rewrite (is_stopped_false _ Hs). start_cases.
Qed.

Lemma start_session_stacker_new (w : World) (s : State) :
  session (DYNAMIC_DATA s) = stopped →
  get_input_system (config w) ∈ [SCANNER_TYPE_FILESYSTEM; SCANNER_TYPE_INDI] →
  _stacker (start_session w s).2 = Stacker_reset (_stacker s).
Proof.
  intros Hs Ht. unfold start_session. unfold_M. simpl.
  rewrite (is_stopped_true _ Hs).
  destruct (create_scanner_supported (config w) _ Ht) as (sc & -> & _).
  start_cases.
Qed.

Lemma stop_session_stacker (s : State) :
  _stacker (stop_session s).2 = _stacker s.
Proof. unfold_calls. unfold_M. simpl. by all_cases. Qed.

Lemma pause_session_stacker (s : State) :
  _stacker (pause_session s).2 = _stacker s.
Proof. unfold_calls. unfold_M. simpl. by all_cases. Qed.

(** A start that nothing hinders returns and leaves the session running. *)
Lemma start_session_succeeds (w : World) (s : State) :
  world_fine w →
  session (DYNAMIC_DATA s) = stopped ∨ is_Some (_input_scanner s) →
  (start_session w s).1 = Returned () ∧
  session (DYNAMIC_DATA (start_session w s).2) = running.
Proof.
  intros (Ht & Hdirs & Hweb & Hobs) Hstate.
  destruct (folders_present w Hdirs) as (Hscan & Hwork & Hwebdir).
  destruct (create_scanner_supported (config w) _ Ht) as (sc0 & Hsc0 & _).
  rewrite start_session_status.
  assert ((start_session w s).1 = Returned ()) as ->; [|done].
  unfold start_session. unfold_M. simpl.
  rewrite Hsc0. unfold check_folders, folders_dict. simpl.
  rewrite Hscan, Hwork, Hwebdir. simpl.
  unfold _setup_web_content. rewrite Hweb.
  unfold input_scanner_start, Scanner.start. unfold_M. rewrite Hobs.
  destruct (is_stopped (DYNAMIC_DATA s)) eqn:Hst; simpl.
  - by all_cases.
  - destruct Hstate as [Hs|[sc Hsc]].
    + by rewrite (is_stopped_true _ Hs) in Hst.
    + rewrite Hsc. by all_cases.
Qed.

(** *** The session state machine *)

Lemma start_session_legal (w : World) (s : State) :
  legal_transition (session (DYNAMIC_DATA s))
    (session (DYNAMIC_DATA (start_session w s).2)).
Proof.
  rewrite start_session_status.
  by destruct (start_session w s).1, (session (DYNAMIC_DATA s)).
Qed.

Lemma stop_session_legal (s : State) :
  legal_transition (session (DYNAMIC_DATA s))
    (session (DYNAMIC_DATA (stop_session s).2)).
Proof.
  unfold_calls. unfold_M. simpl. unfold is_stopped.
  destruct (session (DYNAMIC_DATA s)) eqn:Hs; simpl;
    by all_cases.
Qed.

Lemma pause_session_legal (s : State) :
  session (DYNAMIC_DATA s) ≠ stopped →
  legal_transition (session (DYNAMIC_DATA s))
    (session (DYNAMIC_DATA (pause_session s).2)).
Proof.
  intros Hns. unfold_calls. unfold_M. simpl. unfold is_running.
  destruct (session (DYNAMIC_DATA s)) eqn:Hs; simpl; [done|..];
    by all_cases.
Qed.

(** *** The stack accumulator across session calls *)

(** C3, as the code has it. [Stacker.reset] is what discards the
    accumulated stack. [stop_session] and [pause_session] never call it,
    nor does [start_session] on a session that is not stopped: they leave
    the stacker as it is. [start_session] on a stopped session, once the
    scanner is created, calls it itself: a new session starts from an empty
    accumulator, whatever else the start then does. *)
Theorem accumulator_cleared_by_new_session (w : World) (s : State) :
  _stacker (stop_session s).2 = _stacker s ∧
  _stacker (pause_session s).2 = _stacker s ∧
  (session (DYNAMIC_DATA s) ≠ stopped →
   _stacker (start_session w s).2 = _stacker s) ∧
  (session (DYNAMIC_DATA s) = stopped →
   get_input_system (config w)
     ∈ [SCANNER_TYPE_FILESYSTEM; SCANNER_TYPE_INDI] →
   _stacker (start_session w s).2 = Stacker_reset (_stacker s)).
Proof.
  split; [apply stop_session_stacker|].
  split; [apply pause_session_stacker|].
  split; [apply start_session_stacker_restart|].
  apply start_session_stacker_new.
Qed.

Lemma accumulator_cleared_by_new_session_witness :
  size (_stacker (start_session Examples.world_ok Examples.session_paused).2) = 3 ∧
  size (_stacker (start_session Examples.world_ok Examples.session_stopped).2) = 0.
Proof.
  split.
  - rewrite (proj1 (proj2 (proj2 (accumulator_cleared_by_new_session
               Examples.world_ok Examples.session_paused)))); [reflexivity|].
    discriminate.
  - rewrite (proj2 (proj2 (proj2 (accumulator_cleared_by_new_session
               Examples.world_ok Examples.session_stopped)))).
    + reflexivity.
    + reflexivity.
    + apply list_elem_of_here.
Defined.

(** C3, counterexample. A stopped session that still holds a stack of
    three frames is started again, with every folder in place: the start
    returns normally and the accumulator is empty with count zero. *)
Lemma start_session_clears_accumulator :
  session (DYNAMIC_DATA Examples.session_stopped) = stopped ∧
  accumulator (_stacker Examples.session_stopped) = Some [[7; 7]; [7; 7]] ∧
  size (_stacker Examples.session_stopped) = 3 ∧
  (start_session Examples.world_ok Examples.session_stopped).1 = Returned () ∧
  accumulator
    (_stacker (start_session Examples.world_ok Examples.session_stopped).2)
    = None ∧
  size (_stacker (start_session Examples.world_ok Examples.session_stopped).2)
    = 0 ∧
  _stacker (start_session Examples.world_ok Examples.session_stopped).2
    ≠ _stacker Examples.session_stopped.
Proof. repeat split; try reflexivity. discriminate. Qed.

(** *** A start that fails *)

(** C7, as the code has it. Let [start_session] be ordered on a stopped
    session with a supported input system configured, or on a paused
    session whose scanner is at rest. If a required folder is missing (a
    stopped session checks them), or the web content cannot be prepared, or
    the scanner fails to start, the call is left by a [SessionError] (or its
    subclass [CriticalFolderMissing]) that carries a title and details; the
    status is the one before the call, stopped or paused; the input scanner,
    the only stage the call starts, is not scanning; and a later start that
    nothing hinders returns and leaves the session running. *)
Theorem start_session_failure (w : World) (s : State)
    (Hstate :
       (session (DYNAMIC_DATA s) = stopped ∧
        get_input_system (config w)
          ∈ [SCANNER_TYPE_FILESYSTEM; SCANNER_TYPE_INDI]) ∨
       (session (DYNAMIC_DATA s) = paused ∧
        ∃ sc, _input_scanner s = Some sc ∧ is_scanning sc = false))
    (Hfail :
       (session (DYNAMIC_DATA s) = stopped ∧ folder_missing w) ∨
       is_Some (web_content_error w) ∨
       source_fails_to_start w s) :
  (∃ cls title details,
     (start_session w s).1 = Raised (Exn cls [title; details]) ∧
     issubclass cls SessionError = true) ∧
  session (DYNAMIC_DATA (start_session w s).2) = session (DYNAMIC_DATA s) ∧
  (∃ sc', _input_scanner (start_session w s).2 = Some sc' ∧
          is_scanning sc' = false) ∧
  (∀ w', world_fine w' →
     (start_session w' (start_session w s).2).1 = Returned () ∧
     session (DYNAMIC_DATA (start_session w' (start_session w s).2).2)
       = running).
Proof.
  assert ((∃ cls title details,
             (start_session w s).1 = Raised (Exn cls [title; details]) ∧
             issubclass cls SessionError = true) ∧
          (∃ sc', _input_scanner (start_session w s).2 = Some sc' ∧
                  is_scanning sc' = false)) as [Hraised Hscanner].
  { destruct Hstate as [[Hs Ht]|[Hs (sc & Hsc & Hrest)]].
    - (* a new session *)
      destruct (create_scanner_supported (config w) _ Ht) as (sc0 & Hsc0 & Hrest).
      assert (folder_missing w ∨ is_Some (web_content_error w) ∨
              ∃ e, (start w sc0).1 = Raised e) as Hfail'.
      { destruct Hfail as [[_ Hf]|[Hf|(sc & e & Hsc & He)]]; [by left|by right; left|].
        right; right. exists e. unfold scanner_to_start in Hsc.
        rewrite (is_stopped_true _ Hs), Hsc0 in Hsc. by injection Hsc as ->. }
      clear Hfail. unfold start_session. unfold_M. simpl.
      rewrite (is_stopped_true _ Hs). simpl. rewrite Hsc0. simpl.
      destruct Hfail' as [Hf|[[msg Hweb]|[e He]]].
      + apply folders_absent in Hf.
        start_cases;
          first [ split; [by eexists _, _, _ | by eexists]
                | by destruct Hf as [Hf|[Hf|Hf]]; rewrite Hf in * ].
      + unfold _setup_web_content. rewrite Hweb.
        start_cases; (split; [by eexists _, _, _ | by eexists]).
      + apply scanner_start_raised in He as (o & msg & -> & Hobs & ->).
        unfold input_scanner_start, Scanner.start. unfold_M. simpl.
        rewrite Hobs.
        start_cases; (split; [by eexists _, _, _ | by eexists]).
    - (* a paused session *)
      assert (is_Some (web_content_error w) ∨
              ∃ e, (start w sc).1 = Raised e) as Hfail'.
      { destruct Hfail as [[Hstop _]|[Hf|(sc1 & e & Hsc1 & He)]];
          [congruence | by left |].
        right. exists e. unfold scanner_to_start in Hsc1.
        rewrite is_stopped_false in Hsc1 by congruence.
        rewrite Hsc in Hsc1. by injection Hsc1 as ->. }
      clear Hfail. unfold start_session. unfold_M. simpl.
      rewrite is_stopped_false by congruence. simpl.
      destruct Hfail' as [[msg Hweb]|[e He]].
      + unfold _setup_web_content. rewrite Hweb. unfold_calls. unfold_M.
        simpl. split; [by eexists _, _, _ | by eexists].
      + apply scanner_start_raised in He as (o & msg & -> & Hobs & ->).
        unfold input_scanner_start, Scanner.start. unfold_M. simpl.
        rewrite Hobs.
        start_cases;
          (split; [by eexists _, _, _ | rewrite ?Hsc; by eexists]). }
  assert (session (DYNAMIC_DATA (start_session w s).2)
          = session (DYNAMIC_DATA s)) as Hstatus.
  { rewrite start_session_status.
    by destruct Hraised as (cls & title & details & -> & _). }
  split; [exact Hraised|]. split; [exact Hstatus|]. split; [exact Hscanner|].
  intros w' Hfine. apply start_session_succeeds; [done|].
  right. destruct Hscanner as (sc' & -> & _). by eexists.
Qed.

Lemma start_session_failure_witness :
  (∃ cls title details,
     (start_session Examples.world_no_work_folder Examples.session_stopped).1
       = Raised (Exn cls [title; details]) ∧
     issubclass cls SessionError = true) ∧
  session
    (DYNAMIC_DATA
       (start_session Examples.world_no_work_folder Examples.session_stopped).2)
    = stopped.
Proof.
  assert (folder_missing Examples.world_no_work_folder) as Hmissing.
  { exists "work", "/als/work". split; [|reflexivity].
    apply list_elem_of_further, list_elem_of_here. }
  destruct (start_session_failure Examples.world_no_work_folder
              Examples.session_stopped
              (or_introl (conj eq_refl (list_elem_of_here _ _)))
              (or_introl (conj eq_refl Hmissing)))
    as (Hraised & Hstatus & _).
  split; [exact Hraised | exact Hstatus].
Defined.

(** C7, counterexample. A paused session is started again and the
    observer of its folder scanner cannot start: the call is left by a
    session error, and the session is paused as before, not stopped. *)
Lemma failed_restart_leaves_session_paused :
  session (DYNAMIC_DATA Examples.session_paused) = paused ∧
  source_fails_to_start Examples.world_scanner_fails Examples.session_paused ∧
  (start_session Examples.world_scanner_fails Examples.session_paused).1
    = Raised (Exn SessionError
                ["Input scanner could not start";
                 "[Errno 2] No such file or directory: '/als/scan'"]) ∧
  session
    (DYNAMIC_DATA
       (start_session Examples.world_scanner_fails Examples.session_paused).2)
    = paused ∧
  session
    (DYNAMIC_DATA
       (start_session Examples.world_scanner_fails Examples.session_paused).2)
    ≠ stopped.
Proof.
  split; [reflexivity|]. split.
  { eexists _, _. split; reflexivity. }
  split; [reflexivity|]. split; [reflexivity | discriminate].
Qed.

(** *** A start from paused *)

(** C8, counterexample. A start ordered on a paused session can leave
    ingestion at rest. The web content is set up again, and when that fails
    the scanner is not started and the session stays paused; the session
    stays paused too when the observer of the folder scanner cannot start.
    With an INDI server that cannot be reached the call returns and the
    session runs, on a scanner that is not connected. And on the paused
    controller without scanner, which a pause ordered on a new controller
    leaves, the call is left by an [AttributeError]. *)
Lemma start_while_paused_leaves_ingestion_at_rest :
  (session (DYNAMIC_DATA Examples.session_paused) = paused ∧
   (start_session ExamplesMore.world_web_fails Examples.session_paused).1
     = Raised (Exn SessionError
                 ["Web folder could not be prepared";
                  "[Errno 13] Permission denied: '/als/web/index.html'"]) ∧
   session
     (DYNAMIC_DATA
        (start_session ExamplesMore.world_web_fails Examples.session_paused).2)
     = paused ∧
   _input_scanner
     (start_session ExamplesMore.world_web_fails Examples.session_paused).2
     = Some (FolderScanner None)) ∧
  ((start_session Examples.world_scanner_fails Examples.session_paused).1
     = Raised (Exn SessionError
                 ["Input scanner could not start";
                  "[Errno 2] No such file or directory: '/als/scan'"]) ∧
   session
     (DYNAMIC_DATA
        (start_session Examples.world_scanner_fails Examples.session_paused).2)
     = paused ∧
   from_option is_scanning false
     (_input_scanner
        (start_session Examples.world_scanner_fails Examples.session_paused).2)
     = false) ∧
  (session (DYNAMIC_DATA ExamplesMore.session_paused_indi) = paused ∧
   (start_session ExamplesMore.world_indi_unreachable
      ExamplesMore.session_paused_indi).1 = Returned () ∧
   session
     (DYNAMIC_DATA
        (start_session ExamplesMore.world_indi_unreachable
           ExamplesMore.session_paused_indi).2)
     = running ∧
   _input_scanner
     (start_session ExamplesMore.world_indi_unreachable
        ExamplesMore.session_paused_indi).2
     = Some (IndiScanner ("localhost", 7624%N) None false) ∧
   is_scanning (IndiScanner ("localhost", 7624%N) None false) = false) ∧
  (session (DYNAMIC_DATA (pause_session Examples.new_controller).2) = paused ∧
   _input_scanner (pause_session Examples.new_controller).2 = None ∧
   (start_session Examples.world_ok (pause_session Examples.new_controller).2).1
     = Raised (Exn AttributeError
                 ["'NoneType' object has no attribute 'start'"]) ∧
   session
     (DYNAMIC_DATA
        (start_session Examples.world_ok
           (pause_session Examples.new_controller).2).2)
     = paused).
Proof. repeat split; reflexivity. Qed.

(** C8. [start_session] on a paused session does nothing to the pipeline,
    whatever its outcome: every queue keeps its content, the stacker, the
    heap, the last stacking result and the warning flag are as before, no
    scanner is created (the controller holds the scanner it held, at most
    started), and the call depends neither on the configuration nor on
    which folders exist. The web content is set up again: when that fails
    the call raises [SessionError], the session stays paused and the scanner
    is not touched. When the controller holds a scanner, the web content is
    prepared and the scanner can start (the observer of a folder scanner
    starts; an INDI scanner is connected or gets its connection), the call
    returns, the session runs, and the scanner the controller holds is the
    one it held, started and scanning. *)
Theorem start_session_while_paused
    (w : World) (s : State)
    (Hpaused : session (DYNAMIC_DATA s) = paused) :
  (∀ q, queue q (DYNAMIC_DATA (start_session w s).2)
        = queue q (DYNAMIC_DATA s)) ∧
  _stacker (start_session w s).2 = _stacker s ∧
  heap (start_session w s).2 = heap s ∧
  _last_stacking_result (start_session w s).2 = _last_stacking_result s ∧
  has_new_warnings (DYNAMIC_DATA (start_session w s).2)
    = has_new_warnings (DYNAMIC_DATA s) ∧
  (_input_scanner (start_session w s).2 = _input_scanner s ∨
   ∃ sc, _input_scanner s = Some sc ∧
         _input_scanner (start_session w s).2 = Some (start w sc).2) ∧
  (∀ w',
     web_content_error w' = web_content_error w →
     observer_error w' = observer_error w →
     connectServer w' = connectServer w →
     start_session w' s = start_session w s) ∧
  (∀ os_error,
     web_content_error w = Some os_error →
     (start_session w s).1
       = Raised (Exn SessionError ["Web folder could not be prepared"; os_error]) ∧
     session (DYNAMIC_DATA (start_session w s).2) = paused ∧
     _input_scanner (start_session w s).2 = _input_scanner s) ∧
  (∀ sc,
     _input_scanner s = Some sc →
     web_content_error w = None →
     match sc with
     | FolderScanner _ => observer_error w = None
     | IndiScanner _ _ connected => connected || connectServer w = true
     end →
     (start_session w s).1 = Returned () ∧
     session (DYNAMIC_DATA (start_session w s).2) = running ∧
     _input_scanner (start_session w s).2 = Some (start w sc).2 ∧
     is_scanning (start w sc).2 = true).
Proof.
  assert (is_stopped (DYNAMIC_DATA s) = false) as Hns
    by (apply is_stopped_false; congruence).
  unfold start_session. unfold_M. simpl. rewrite Hns. simpl.
  split; [|split; [|split; [|split; [|split; [|split; [|split; [|split]]]]]]].
  - intros q. start_cases; by destruct q.
  - start_cases.
  - start_cases.
  - start_cases.
  - start_cases.
  - destruct (_input_scanner s) as [sc|] eqn:Hsc.
    + unfold _setup_web_content. unfold_calls. unfold_M. simpl.
      destruct (web_content_error w); simpl; [by left|].
      rewrite Hsc. right. exists sc. split; [done|].
      destruct (start w sc) as [[[]|e] sc']; simpl; [done|]. all_cases.
    + left. unfold _setup_web_content. unfold_calls. unfold_M. simpl.
      destruct (web_content_error w); simpl; [done|]. by rewrite Hsc.
  - intros w' Hweb Hobs Hconn.
    unfold _setup_web_content, input_scanner_start, Scanner.start.
    by rewrite Hweb, Hobs, Hconn.
  - intros os_error Hweb. unfold _setup_web_content. rewrite Hweb.
    unfold_calls. unfold_M. simpl. by rewrite Hpaused.
  - intros sc Hscanner Hweb Hstarts. unfold _setup_web_content. rewrite Hweb.
    unfold_calls. unfold_M. simpl. rewrite Hscanner.
    destruct sc as [o|srv dev connected]; simpl.
    + by rewrite Hstarts.
    + destruct connected; simpl in *; [done|]. by rewrite Hstarts.
Qed.

Lemma start_session_while_paused_witness :
  (∀ q, queue q (DYNAMIC_DATA
                   (start_session Examples.world_ok Examples.session_paused).2)
        = queue q (DYNAMIC_DATA Examples.session_paused)) ∧
  session (DYNAMIC_DATA
             (start_session Examples.world_ok Examples.session_paused).2)
    = running ∧
  _input_scanner (start_session Examples.world_ok Examples.session_paused).2
    = Some (FolderScanner (Some {| alive := true |})) ∧
  is_scanning (FolderScanner (Some {| alive := true |})) = true.
Proof.
  destruct (start_session_while_paused Examples.world_ok
              Examples.session_paused eq_refl)
    as (Hq & _ & _ & _ & _ & _ & _ & _ & Hrun).
  split; [exact Hq|].
  destruct (Hrun (FolderScanner None) eq_refl eq_refl eq_refl)
    as (_ & Hstatus & Hscanner & Hscanning).
  split; [exact Hstatus|]. split; [exact Hscanner | exact Hscanning].
Defined.

End controller.

(** ** Reading a file from disk *)

Section image_reader.
Import Input ImageReader.

Lemma bayer_contract_dec (indices : list nat) (description : string) :
  Decision (bayer_contract indices description).
Proof. unfold bayer_contract. apply _. Defined.

(** The Bayer computation either ends normally, under the contract, or is
    left by [AssertionError]. *)
Lemma compute_bayer_pattern_cases (indices : list nat) (description : string) :
  (bayer_contract indices description ∧
   ∃ out, compute_bayer_pattern indices description = Returned out) ∨
  (¬ bayer_contract indices description ∧
   compute_bayer_pattern indices description = Raised (Exn AssertionError [])).
Proof.
  destruct (bayer_contract_dec indices description) as [Hc|Hc]; [left|right].
  - split; [done|].
    destruct (bayer_pattern_loop_ok indices description Hc indices 0 EmptyString)
      as (out & Hrun & _); [done|].
    exists out. unfold compute_bayer_pattern.
    destruct Hc as [-> _]. by rewrite Nat.eqb_refl.
  - split; [done|]. unfold compute_bayer_pattern.
    destruct (length indices =? String.length description) eqn:Hl; [|done].
    apply Nat.eqb_eq in Hl.
    apply (bayer_pattern_loop_assert indices description Hl indices 0); [done|].
    intros Hall. apply Hc. by split.
Qed.

Lemma ignore_loop_true (patterns : list string) (name : string) :
  ignore_loop patterns name = true ↔
  ∃ pattern, pattern ∈ patterns ∧ String.prefix pattern name = true.
Proof.
  induction patterns as [|p patterns IH]; simpl.
  - split; [done|]. intros (pattern & Hin & _). by apply elem_of_nil in Hin.
  - destruct (String.prefix p name) eqn:Hp.
    + split; [|done]. intros _. exists p. split; [apply list_elem_of_here | done].
    + rewrite IH. split.
      * intros (pattern & Hin & Hpre). exists pattern.
        split; [by apply list_elem_of_further | done].
      * intros (pattern & Hin & Hpre).
        apply elem_of_cons in Hin as [->|Hin]; [congruence|]. by exists pattern.
Qed.

(** X1. A file whose name starts with a dot, a tilde or tmp is not read:
    [read_disk_image] returns [None] and sends no message, whatever the
    suffix of the file and whatever decoding it would give. *)
Theorem read_disk_image_ignored
    (dec : Decoders) (path : Path) (pattern : string)
    (Hpattern : pattern ∈ ["."; "~"; "tmp"])
    (Hstarts : String.prefix pattern (path_name path) = true) :
  read_disk_image dec path = (Returned None, []).
Proof.
  unfold read_disk_image.
  assert (ignore_loop _IGNORED_FILENAME_START_PATTERNS (path_name path) = true)
    as -> by (apply ignore_loop_true; by exists pattern).
  done.
Qed.

Lemma read_disk_image_ignored_witness :
  read_disk_image
    {| fits_open := λ _, FitsRaised (Exn ValueError ["not a FITS file"]);
       imread := λ _, ImreadFatal "unsupported" |}
    {| path_name := "tmp_capture.fits"; path_suffix := ".fits";
       path_resolve := "/als/scan/tmp_capture.fits" |}
  = (Returned None, []).
Proof.
  apply (read_disk_image_ignored _ _ "tmp"); [|reflexivity].
  apply list_elem_of_further, list_elem_of_further, list_elem_of_here.
Defined.

(** X2. [read_disk_image] sends one message per file it reads: an image
    comes with exactly one message, the information that the read succeeded,
    which names the origin of the image, and that origin is the resolved
    path of the file; [None] for a file that is not ignored comes with
    exactly one error report that names the resolved path; and an exception
    that leaves the call comes with no message. *)
Theorem read_disk_image_messages (dec : Decoders) (path : Path) :
  match read_disk_image dec path with
  | (Returned (Some image), msgs) =>
      origin image = Some ("FILE : " +:+ path_resolve path) ∧
      msgs = [Msg LevelInfo "Successful image read from {}"
                ["FILE : " +:+ path_resolve path]]
  | (Returned None, msgs) =>
      ignore_loop _IGNORED_FILENAME_START_PATTERNS (path_name path) = true
        ∧ msgs = [] ∨
      ∃ error_str,
        msgs = [Msg LevelError "Error reading from file {} : {}"
                  [path_resolve path; error_str]]
  | (Raised _, msgs) => msgs = []
  end.
Proof.
  unfold read_disk_image.
  destruct (ignore_loop _ _) eqn:Hi; simpl; [by left|].
  case_bool_decide as Hsuffix.
  - unfold _read_fit_image.
    destruct (fits_open dec (path_resolve path)) as [samples header|msg|error].
    + by destruct (header !! "BAYERPAT").
    + right. by eexists.
    + destruct (isinstance error OSError); [right; by eexists | done].
  - unfold _read_raw_image.
    destruct (imread dec (path_resolve path)) as [raw|msg|msg| |error].
    + by destruct (compute_bayer_pattern _ _).
    + right. by eexists.
    + right. by eexists.
    + done.
    + destruct (isinstance error LibRawNonFatalError); [right; by eexists|].
      destruct (isinstance error LibRawFatalError); [right; by eexists | done].
Qed.

(** X3. The exceptions that leave [read_disk_image]. For a file that is not
    ignored and has a FITS suffix (in any letter case), the call is left by
    an exception exactly when the decoding raised one that is neither an
    [OSError] nor a [TypeError], and by that one. For any other file that is
    not ignored, it is left by an exception in three cases and no other:
    the file decoded and its sensor metadata violate the Bayer contract,
    and the exception is an [AssertionError]; the file decoded without a
    Bayer pattern, and the exception is the [AttributeError] of the call of
    [flatten] on [None]; the decoding raised an exception that is an
    instance of neither LibRaw class, and the call is left by that one. *)
Theorem read_disk_image_raises (dec : Decoders) (path : Path) (e : exn)
    (Hread : ignore_loop _IGNORED_FILENAME_START_PATTERNS (path_name path) = false) :
  (read_disk_image dec path).1 = Raised e ↔
  if bool_decide (lower (path_suffix path) ∈ [".fit"; ".fits"; ".fts"]) then
    fits_open dec (path_resolve path) = FitsRaised e ∧
    isinstance e OSError = false
  else
    match imread dec (path_resolve path) with
    | ImreadOk raw =>
        ¬ bayer_contract (raw_pattern raw) (color_desc raw) ∧
        e = Exn AssertionError []
    | ImreadNonFatal _ | ImreadFatal _ => False
    | ImreadNoPattern =>
        e = Exn AttributeError ["'NoneType' object has no attribute 'flatten'"]
    | ImreadRaised error =>
        error = e ∧
        isinstance e LibRawNonFatalError = false ∧
        isinstance e LibRawFatalError = false
    end.
Proof.
  unfold read_disk_image. rewrite Hread. simpl.
  case_bool_decide as Hsuffix.
  - unfold _read_fit_image.
    destruct (fits_open dec (path_resolve path)) as [samples header|msg|error];
      simpl.
    + split; [done | by intros [? _]].
    + split; [done | by intros [? _]].
    + destruct (isinstance error OSError) eqn:Hcls; simpl.
      * split; [done|]. intros [[= ->] ?]. congruence.
      * split; [by intros [= ->] | by intros [[= ->] _]].
  - unfold _read_raw_image.
    destruct (imread dec (path_resolve path)) as [raw|msg|msg| |error]; simpl.
    + destruct (compute_bayer_pattern_cases (raw_pattern raw) (color_desc raw))
        as [[Hc [out ->]]|[Hc ->]]; simpl.
      * split; [done|]. by intros [Hv _].
      * split; [by intros [= <-] | by intros [_ ->]].
    + done.
    + done.
    + split; [by intros [= <-] | by intros ->].
    + destruct (isinstance error LibRawNonFatalError) eqn:Hnf; simpl.
      * split; [done|]. intros (-> & ? & _). congruence.
      * destruct (isinstance error LibRawFatalError) eqn:Hf; simpl.
        -- split; [done|]. intros (-> & _ & ?). congruence.
        -- split; [by intros [= ->] | by intros (-> & _)].
Qed.

Lemma read_disk_image_raises_witness :
  (read_disk_image
     {| fits_open := λ _, FitsTypeError "unused";
        imread := λ _, ImreadNoPattern |}
     {| path_name := "m31.dng"; path_suffix := ".dng";
        path_resolve := "/als/scan/m31.dng" |}).1
  = Raised (Exn AttributeError ["'NoneType' object has no attribute 'flatten'"]).
Proof. by apply read_disk_image_raises. Defined.
End image_reader.

(** ** Waiting for a new file to be complete *)

Section file_complete.
Import ImageReader.
Local Open Scope Z_scope.

Variable size_at : nat → Z.

(** The size the loop compares a reading with: the previous reading, or the
    initial [last_file_size] at the first one. *)
Let previous (start : nat) (last : Z) (j : nat) : Z :=
  if decide (j = start) then last else size_at (j - 1).

Lemma previous_later (start : nat) (last : Z) (j : nat) :
  (start < j)%nat → previous start last j = size_at (j - 1).
Proof. intros Hj. unfold previous. by rewrite decide_False by lia. Qed.

Lemma previous_next (start : nat) (j : nat) :
  (start < j)%nat → previous (start + 1) (size_at start) j = size_at (j - 1).
Proof.
  intros Hj. unfold previous.
  destruct (decide (j = (start + 1)%nat)) as [->|_]; [|done].
  f_equal. lia.
Qed.

Lemma wait_until_complete_spec (rounds start : nat) (last : Z) (n : nat) :
  wait_until_complete rounds size_at start last = Some n ↔
  (start ≤ n < start + rounds)%nat ∧
  size_at n = previous start last n ∧
  ∀ j, (start ≤ j < n)%nat → size_at j ≠ previous start last j.
Proof.
  revert start last. induction rounds as [|rounds IH]; intros start last; simpl.
  - split; [done | lia].
  - assert (previous start last start = last) as Hstart.
    { unfold previous. by rewrite decide_True. }
    destruct (Z.eqb_spec (size_at start) last) as [Heq|Hne].
    + split.
      * intros [= <-]. split; [lia|]. split; [by rewrite Hstart | lia].
      * intros (Hn & Hsame & Hdiff).
        destruct (decide (n = start)) as [->|Hns]; [done|].
        exfalso. apply (Hdiff start); [lia|]. by rewrite Hstart.
    + split.
      * intros Hrun. apply IH in Hrun as (Hn & Hsame & Hdiff).
        split; [lia|]. split.
        { rewrite previous_later by lia. rewrite Hsame. apply previous_next. lia. }
        intros j Hj. destruct (decide (j = start)) as [->|Hjs].
        { by rewrite Hstart. }
        rewrite previous_later by lia. rewrite <- (previous_next start) by lia.
        apply Hdiff. lia.
      * intros (Hn & Hsame & Hdiff).
        assert (n ≠ start) as Hns.
        { intros ->. rewrite Hstart in Hsame. done. }
        apply IH. split; [lia|]. split.
        { rewrite previous_next by lia. rewrite Hsame. apply previous_later. lia. }
        intros j Hj. rewrite previous_next by lia.
        rewrite <- (previous_later start last) by lia. apply Hdiff. lia.
Qed.

(** X4. The loop of [on_created] that waits for a new file to be complete,
    on file sizes that are never negative: it ends after [n] sleeps exactly
    when the reading after the [n]-th sleep is the first one that equals the
    reading before it. In particular it never ends at the first reading: a
    new file is read after one sleep at the earliest. *)
Theorem wait_until_complete_first_stable (rounds n : nat)
    (Hsizes : ∀ k, 0 ≤ size_at k) :
  wait_until_complete rounds size_at 0 (-1) = Some n ↔
  (1 ≤ n < rounds)%nat ∧
  size_at n = size_at (n - 1) ∧
  ∀ j, (1 ≤ j < n)%nat → size_at j ≠ size_at (j - 1).
Proof.
  rewrite wait_until_complete_spec. split.
  - intros (Hn & Hsame & Hdiff).
    assert (n ≠ 0%nat) as Hn0.
    { intros ->. unfold previous in Hsame. rewrite decide_True in Hsame by done.
      specialize (Hsizes 0%nat). lia. }
    rewrite previous_later in Hsame by lia.
    split; [lia|]. split; [done|].
    intros j Hj. rewrite <- (previous_later 0 (-1)) by lia. apply Hdiff. lia.
  - intros (Hn & Hsame & Hdiff).
    split; [lia|]. split; [by rewrite previous_later by lia|].
    intros j Hj. destruct (decide (j = 0%nat)) as [->|Hj0].
    + unfold previous. rewrite decide_True by done.
      specialize (Hsizes 0%nat). lia.
    + rewrite previous_later by lia. apply Hdiff. lia.
Qed.
End file_complete.

Lemma wait_until_complete_first_stable_witness :
  ImageReader.wait_until_complete 10
    (λ k, match k with O => 0%Z | S O => 4096%Z | _ => 8192%Z end) 0 (-1)%Z
  = Some 3.
Proof.
  apply wait_until_complete_first_stable.
  - intros [|[|k]]; lia.
  - split; [lia|]. split; [reflexivity|].
    intros [|[|[|j]]] Hj; simpl; lia.
Defined.

(** ** The scanners *)

Section scanners.
Import Scanner.

(** X5. [stop] brings the observer the scanner holds, or its connection, to
    rest: the stopped scanner is not scanning and stopping it again changes
    nothing. For a scanner at rest, where a start replaces no observer that
    lives, stopping after a start, successful or not, leaves the scanner not
    scanning and gives what stopping without the start gives. *)
Theorem stop_brings_to_rest (w : World) (self : InputScanner) :
  is_scanning (stop self) = false ∧
  stop (stop self) = stop self ∧
  (is_scanning self = false →
   is_scanning (stop (start w self).2) = false ∧
   stop (start w self).2 = stop self).
Proof.
  destruct self as [[o|]|srv dev [|]]; simpl;
    destruct (observer_error w); simpl; try done;
    by destruct (connectServer w).
Qed.

Lemma stop_brings_to_rest_witness :
  is_scanning (start Examples.world_ok (FolderScanner None)).2 = true ∧
  is_scanning (stop (start Examples.world_ok (FolderScanner None)).2) = false ∧
  stop (start Examples.world_ok (FolderScanner None)).2 = FolderScanner None.
Proof.
  split; [reflexivity|].
  destruct (stop_brings_to_rest Examples.world_ok (FolderScanner None))
    as (_ & _ & Hrest).
  exact (Hrest eq_refl).
Defined.

(** X22. A start does not stop the observer it replaces, and [stop] stops
    the last one only. For a scanner none of whose earlier observers lives:
    after a start, successful or not, and a stop, the scanner holds nothing
    that scans, and files still reach it exactly when it is a folder scanner
    that was scanning when it was started. *)
Theorem stop_after_start_delivers (w : World) (t : Observers.Tracked)
    (Hnone : existsb alive (Observers.replaced t) = false) :
  is_scanning (Observers.scanner (Observers.stop (Observers.start w t).2))
    = false ∧
  Observers.delivers (Observers.stop (Observers.start w t).2)
    = match Observers.scanner t with
      | FolderScanner _ => is_scanning (Observers.scanner t)
      | IndiScanner _ _ _ => false
      end.
Proof.
  destruct t as [self observers]. simpl in Hnone.
  unfold Observers.start, Observers.stop, Observers.delivers. simpl.
  destruct self as [[o|]|srv dev [|]]; simpl;
    destruct (observer_error w); simpl;
    rewrite ?existsb_app, ?Hnone, ?app_nil_r; simpl;
    rewrite ?orb_false_r; try done;
    by destruct (connectServer w).
Qed.

Lemma stop_after_start_delivers_witness :
  Observers.delivers
    (Observers.stop
       (Observers.start Examples.world_ok
          {| Observers.scanner := FolderScanner (Some {| alive := true |});
             Observers.replaced := [] |}).2)
  = true.
Proof.
  exact (proj2 (stop_after_start_delivers Examples.world_ok
                  {| Observers.scanner := FolderScanner (Some {| alive := true |});
                     Observers.replaced := [] |} eq_refl)).
Defined.
End scanners.

(** ** More about the controller *)

Section controller_calls.
Import Stdlib.Strings.Ascii.
Import Scanner Controller Saving.

Ltac unfold_M :=
  unfold try_except, bind, ret, raise, lift, gets, modify in *.

Ltac unfold_calls :=
  unfold start_session, stop_session, pause_session, _stop_input_scanner,
    input_scanner_start, _setup_web_content, on_new_stack_result,
    on_new_image_read, on_new_pre_processed_image, apply_processing,
    purge_queue, queue_put, dispatch_info, dispatch_error in *.

Ltac all_cases :=
  repeat (case_match; simpl in *; simplify_eq; try done).

Ltac start_cases :=
  unfold_calls; unfold check_folders, folders_dict, Scanner.start;
  unfold_M; simpl; all_cases.

Ltac state_eq :=
  f_equal; apply State_eq; simpl; try reflexivity.

(** *** The session and the backpressure gate *)

Lemma stop_session_stops (s : State) :
  session (DYNAMIC_DATA (stop_session s).2) = stopped.
Proof.
  unfold_calls. unfold_M. simpl. unfold is_stopped.
  case_bool_decide as Hs; simpl; [done|]. all_cases.
Qed.

(** X6. After [stop_session], however the call ends (also when it is left
    by an exception because the controller has no scanner), the session is
    stopped and [wait_for_resources] lets a waiting reader through at its
    first evaluation, whatever is still queued or busy. *)
Theorem stop_session_opens_gate (s : State) (rounds : nat) :
  session (DYNAMIC_DATA (stop_session s).2) = stopped ∧
  wait_for_resources (S rounds) (λ _, DYNAMIC_DATA (stop_session s).2) 0
    = Some 0.
Proof.
  split; [apply stop_session_stops|].
  simpl. rewrite (proj2 (wait_condition_false _)); [done|].
  left. apply stop_session_stops.
Qed.

(** X7. In a session that is not stopped, an image handed to the
    controller by the scanner closes the gate: as long as the pre-process
    queue is as [on_new_image_read] left it, [wait_for_resources] does not
    return, so the scanner reads no second file before the first one left
    that queue. *)
Theorem on_new_image_read_closes_gate
    (s : State) (image : loc) (rounds : nat)
    (Hactive : session (DYNAMIC_DATA s) ≠ stopped) :
  wait_condition (DYNAMIC_DATA (on_new_image_read image s).2) = true ∧
  wait_for_resources rounds
    (λ _, DYNAMIC_DATA (on_new_image_read image s).2) 0 = None.
Proof.
  assert (¬ gate_clear (DYNAMIC_DATA (on_new_image_read image s).2)) as Hblocked.
  { unfold_calls. unfold_M. simpl. unfold put.
    intros [Hs|(Hq & _)]; [done|].
    simpl in Hq. by destruct (pre_process_queue (DYNAMIC_DATA s)). }
  split; [by apply wait_condition_true|].
  by apply wait_for_resources_blocked.
Qed.

Lemma on_new_image_read_closes_gate_witness :
  wait_for_resources 5
    (λ _, DYNAMIC_DATA
            (on_new_image_read 5%positive Examples.session_paused).2) 0
  = None.
Proof.
  apply (on_new_image_read_closes_gate Examples.session_paused 5%positive 5).
  discriminate.
Defined.

(** X8. A second [stop_session] does nothing: after a first call, however
    it ended, the next one returns normally and leaves the state as it
    found it. *)
Theorem stop_session_twice (s : State) :
  stop_session (stop_session s).2 = (Returned (), (stop_session s).2).
Proof. apply stop_session_stopped, stop_session_stops. Qed.

(** X9. Among the calls on the controller, only [pause_session] on a
    stopped session makes a transition that the session state machine does
    not have: every other call leaves the status as it was or makes one of
    the transitions stopped to running, running to paused or stopped, paused
    to running or stopped. *)
Theorem calls_make_legal_transitions (c : call) (s : State)
    (Hpause : c = CallPause → session (DYNAMIC_DATA s) ≠ stopped) :
  legal_transition (session (DYNAMIC_DATA s))
    (session (DYNAMIC_DATA (run_call c s).2)).
Proof.
  assert (∀ st, legal_transition st st) as Hrefl by (by intros []).
  destruct c; simpl.
  - apply start_session_legal.
  - apply stop_session_legal.
  - apply pause_session_legal. by apply Hpause.
  - apply Hrefl.
  - apply Hrefl.
  - unfold_calls. unfold clone. unfold_M. simpl. apply Hrefl.
  - unfold_calls. unfold clone. unfold_M. simpl.
    all_cases; apply Hrefl.
  - unfold save_image, queue_put, clone. unfold_M. simpl. apply Hrefl.
Qed.

Lemma calls_make_legal_transitions_witness :
  legal_transition paused
    (session (DYNAMIC_DATA (run_call CallPause Examples.session_paused).2)).
Proof.
  apply (calls_make_legal_transitions CallPause Examples.session_paused).
  discriminate.
Defined.

(** *** Processing on demand *)

(** X10. [apply_processing] on a stack that is not empty, with an empty
    post-process queue: the queue then holds exactly one item, a new object
    with the content of the last stacking result; the last stacking result
    itself is not queued and is not changed, and no other queue changes. *)
Theorem apply_processing_queues_a_clone
    (s : State) (last : loc) (v : Image)
    (Hsize : 0 < size (_stacker s))
    (Hempty : process_queue (DYNAMIC_DATA s) = [])
    (Hlast : _last_stacking_result s = Some last)
    (Hv : heap s !! last = Some v) :
  (apply_processing s).1 = Returned () ∧
  ∃ c,
    process_queue (DYNAMIC_DATA (apply_processing s).2) = [c] ∧
    (c ∉ dom (heap s)) ∧
    c ≠ last ∧
    heap (apply_processing s).2 !! c = Some v ∧
    heap (apply_processing s).2 !! last = Some v ∧
    _last_stacking_result (apply_processing s).2 = Some last ∧
    ∀ q, q ≠ PostProcessQueue →
         queue q (DYNAMIC_DATA (apply_processing s).2) = queue q (DYNAMIC_DATA s).
Proof.
  apply Nat.ltb_lt in Hsize.
  unfold_calls. unfold clone. unfold_M. simpl.
  rewrite Hsize, Hempty. simpl. rewrite Hlast. simpl. rewrite Hv. simpl.
  pose proof (is_fresh (dom (heap s))) as Hfresh.
  set (c := fresh (dom (heap s))) in *.
  assert (c ≠ last) as Hcl.
  { intros Heq. apply Hfresh. rewrite Heq. apply elem_of_dom. by eexists. }
  split; [done|]. exists c.
  split; [by rewrite Hempty|]. split; [done|]. split; [done|].
  split; [by rewrite lookup_insert_eq|].
  split; [by rewrite lookup_insert_ne|]. split; [done|].
  by intros [] Hq.
Qed.

Lemma apply_processing_queues_a_clone_witness :
  ∃ c,
    process_queue
      (DYNAMIC_DATA
         (apply_processing
            (with_DYNAMIC_DATA (set_queue PostProcessQueue [])
               Examples.session_paused)).2) = [c] ∧
    c ≠ 5%positive.
Proof.
  destruct (apply_processing_queues_a_clone
              (with_DYNAMIC_DATA (set_queue PostProcessQueue [])
                 Examples.session_paused)
              5%positive (Examples.frame 5))
    as (_ & c & Hq & _ & Hne & _).
  - simpl. lia.
  - reflexivity.
  - reflexivity.
  - vm_compute. reflexivity.
  - exists c. split; [exact Hq | exact Hne].
Defined.

(** X11. [apply_processing] never puts a second item in the post-process
    queue: on a queue that is not empty, or on an empty stack, it changes
    nothing; and whenever a call returned, a call that follows it changes
    nothing. *)
Theorem apply_processing_at_most_one_pending (s : State) :
  (size (_stacker s) = 0 ∨ process_queue (DYNAMIC_DATA s) ≠ [] →
   apply_processing s = (Returned (), s)) ∧
  ((apply_processing s).1 = Returned () →
   apply_processing (apply_processing s).2
     = (Returned (), (apply_processing s).2)).
Proof.
  assert (∀ s', size (_stacker s') = 0 ∨ process_queue (DYNAMIC_DATA s') ≠ [] →
                apply_processing s' = (Returned (), s')) as Hnoop.
  { intros s' Hs'. unfold_calls. unfold_M. simpl.
    destruct Hs' as [->|Hq]; [done|].
    destruct (process_queue (DYNAMIC_DATA s')); [done|].
    simpl. by rewrite andb_false_r. }
  split; [apply Hnoop|].
  intros Hret. apply Hnoop.
  revert Hret. unfold_calls. unfold clone. unfold_M. simpl.
  destruct (0 <? size (_stacker s)) eqn:Hsize; simpl.
  - destruct (process_queue (DYNAMIC_DATA s)) eqn:Hq; simpl.
    + destruct (_last_stacking_result s); simpl; [|done].
      intros _. right. unfold put. rewrite Hq. done.
    + intros _. right. by rewrite Hq.
  - intros _. left. apply Nat.ltb_ge in Hsize. lia.
Qed.

Lemma apply_processing_at_most_one_pending_witness :
  apply_processing Examples.session_at_work
  = (Returned (), Examples.session_at_work).
Proof.
  apply (proj1 (apply_processing_at_most_one_pending Examples.session_at_work)).
  right. discriminate.
Defined.

(** *** Saving *)

(** What [save_image] does to a state that holds the image: the whole state
    it leaves. *)
Lemma save_image_run
    (timestamp : string) (image : loc) (v : Image)
    (file_extension dest_folder_path filename_base : string)
    (add_timestamp : bool) (s : State) :
  heap s !! image = Some v →
  save_image timestamp (Some image) file_extension dest_folder_path
    filename_base add_timestamp s
  = (Returned (),
     {| DYNAMIC_DATA :=
          set_queue SaverQueue
            (save_queue (DYNAMIC_DATA s) ++ [fresh (dom (heap s))])
            (DYNAMIC_DATA s);
        MESSAGE_HUB := MESSAGE_HUB s;
        heap :=
          <[fresh (dom (heap s)) :=
              set_destination
                (dest_folder_path +:+ "/" +:+
                 (if add_timestamp then timestamped timestamp filename_base
                  else filename_base) +:+ "." +:+ file_extension) v]> (heap s);
        _input_scanner := _input_scanner s;
        _stacker := _stacker s;
        _last_stacking_result := _last_stacking_result s |}).
Proof.
  intros Hv. unfold save_image, queue_put, clone. unfold_M. simpl.
  state_eq. rewrite Hv. simpl.
  apply map_eq. intros l. rewrite lookup_alter.
  case_decide as Hl.
  - subst l. by rewrite !lookup_insert_eq.
  - by rewrite !lookup_insert_ne.
Qed.

(** X12. [save_image] works on a copy: the saver queue gets one more item
    at its end, a new object whose content is that of the image with the
    destination folder/name.extension; the image it was given keeps its
    content, its destination included, as does every other object; the three
    other queues do not change. *)
Theorem save_image_queues_a_copy
    (timestamp : string) (image : loc) (v : Image)
    (file_extension dest_folder_path filename_base : string) (s : State)
    (Hv : heap s !! image = Some v) :
  let after :=
    (save_image timestamp (Some image) file_extension dest_folder_path
       filename_base false s) in
  after.1 = Returned () ∧
  ∃ c,
    save_queue (DYNAMIC_DATA after.2) = save_queue (DYNAMIC_DATA s) ++ [c] ∧
    (c ∉ dom (heap s)) ∧
    heap after.2 !! c
      = Some (set_destination
                (dest_folder_path +:+ "/" +:+ filename_base +:+ "."
                   +:+ file_extension) v) ∧
    (∀ l, l ∈ dom (heap s) → heap after.2 !! l = heap s !! l) ∧
    ∀ q, q ≠ SaverQueue →
         queue q (DYNAMIC_DATA after.2) = queue q (DYNAMIC_DATA s).
Proof.
  intros after. unfold after.
  rewrite (save_image_run _ _ v) by done. simpl.
  pose proof (is_fresh (dom (heap s))) as Hfresh.
  split; [done|]. exists (fresh (dom (heap s))).
  split; [done|]. split; [done|].
  split; [by rewrite lookup_insert_eq|]. split.
  - intros l Hl. rewrite lookup_insert_ne; [done|]. by intros <-.
  - by intros [] Hq.
Qed.

Lemma save_image_queues_a_copy_witness :
  ∃ c,
    save_queue
      (DYNAMIC_DATA
         (save_image "unused" (Some 3%positive) "jpg" "/als/web" "web_image"
            false Examples.session_at_work).2)
    = [4%positive; c] ∧
    destination <$>
      heap (save_image "unused" (Some 3%positive) "jpg" "/als/web" "web_image"
              false Examples.session_at_work).2 !! c
    = Some (Some "/als/web/web_image.jpg").
Proof.
  assert (heap Examples.session_at_work !! 3%positive = Some (Examples.frame 3))
    as Hv by (vm_compute; reflexivity).
  destruct (save_image_queues_a_copy "unused" 3%positive (Examples.frame 3)
              "jpg" "/als/web" "web_image" Examples.session_at_work Hv)
    as (_ & c & Hq & _ & Hc & _).
  exists c. split; [exact Hq|]. by rewrite Hc.
Defined.

Lemma replace_length (old new : Ascii.ascii) (s : string) :
  String.length (replace old new s) = String.length s.
Proof. induction s as [|c s IH]; simpl; [done | by rewrite IH]. Qed.

Lemma replace_get (old new : Ascii.ascii) (s : string) (i : nat) :
  String.get i (replace old new s)
  = (λ c, if Ascii.eqb c old then new else c) <$> String.get i s.
Proof.
  revert i. induction s as [|c s IH]; intros i; simpl; [done|].
  destruct i as [|i]; [done | apply IH].
Qed.

(** X13. The time stamp in a file name: [save_image] with [add_timestamp]
    appends a dash and the time stamp to the file name base, the time stamp
    as long as before and with every space, colon and dot turned into a
    dash, every other character kept; so what is appended holds no space, no
    colon and no dot. *)
Theorem timestamped_has_no_separator (timestamp filename_base : string) :
  ∃ stamp,
    timestamped timestamp filename_base = filename_base +:+ "-" +:+ stamp ∧
    String.length stamp = String.length timestamp ∧
    (∀ i,
       String.get i stamp
       = (λ c, if bool_decide (c ∈ [" "; ":"; "."]%char) then "-"%char else c)
           <$> String.get i timestamp) ∧
    (∀ i c, String.get i stamp = Some c → c ∉ [" "; ":"; "."]%char).
Proof.
  set (sanitize := λ c : Ascii.ascii,
         if bool_decide (c ∈ [" "; ":"; "."]%char) then "-"%char else c).
  assert (∀ i,
            String.get i
              (replace "."%char "-"%char
                 (replace ":"%char "-"%char (replace " "%char "-"%char timestamp)))
            = sanitize <$> String.get i timestamp) as Hget.
  { intros i. rewrite !replace_get.
    destruct (String.get i timestamp) as [c|]; [|done]. simpl. f_equal.
    unfold sanitize.
    destruct (Ascii.eqb_spec c " "%char) as [->|Hsp]; [done|].
    destruct (Ascii.eqb_spec c ":"%char) as [->|Hco]; [done|].
    destruct (Ascii.eqb_spec c "."%char) as [->|Hdo]; [done|].
    rewrite bool_decide_eq_false_2; [done|].
    intros Hin. repeat (apply elem_of_cons in Hin as [?|Hin]; [done|]).
    by apply elem_of_nil in Hin. }
  eexists. split; [reflexivity|].
  split; [by rewrite !replace_length|]. split; [exact Hget|].
  intros i c Hc. rewrite Hget in Hc.
  destruct (String.get i timestamp) as [c0|]; [|done].
  injection Hc as <-. unfold sanitize. case_bool_decide as Hin; [|done].
  intros Hdash. repeat (apply elem_of_cons in Hdash as [?|Hdash]; [done|]).
  by apply elem_of_nil in Hdash.
Qed.

Lemma string_app_empty_r (s : string) : s +:+ EmptyString = s.
Proof.
  induction s as [|c s IH]; [reflexivity|].
  change (String c (s +:+ EmptyString) = String c s). by f_equal.
Qed.

Lemma bind_returned {A B} (m : M A) (k : A → M B) (s s' : State) (a : A) :
  m s = (Returned a, s') → bind m k s = k a s'.
Proof. intros Hm. unfold bind. by rewrite Hm. Qed.

(** X14. [save_post_process_result] on a result that is in the heap asks for
    one save when [final] is set, to the work folder under the stacked-image
    name with _final and the time stamp; otherwise for two, to the work
    folder under the stacked-image name and to the web folder as JPEG, and
    for a third, time-stamped one in the work folder when every image is to
    be saved. The requests join the saver queue in that order, each one a new
    object of its own with the content of the result and its destination;
    the result itself is left as it is. *)
Theorem save_post_process_result_requests
    (cfg : Config) (ctx : SaveContext) (final : bool) (s : State)
    (image : loc) (v : Image)
    (Hresult : post_processor_result ctx = Some image)
    (Hv : heap s !! image = Some v) :
  let after := save_post_process_result cfg ctx final s in
  let work := get_work_folder_path cfg in
  let stacked := STACKED_IMAGE_FILE_NAME_BASE ctx in
  let format := get_image_save_format ctx in
  let destinations :=
    if final then
      [work +:+ "/" +:+ timestamped (get_timestamp ctx) (stacked +:+ "_final")
         +:+ "." +:+ format]
    else
      [work +:+ "/" +:+ stacked +:+ "." +:+ format;
       get_web_folder_path cfg +:+ "/" +:+ WEB_SERVED_IMAGE_FILE_NAME_BASE ctx
         +:+ "." +:+ IMAGE_SAVE_TYPE_JPEG ctx]
      ++ (if _save_every_image ctx then
            [work +:+ "/" +:+ timestamped (get_timestamp ctx) stacked
               +:+ "." +:+ format]
          else []) in
  after.1 = Returned () ∧
  ∃ requests,
    save_queue (DYNAMIC_DATA after.2) = save_queue (DYNAMIC_DATA s) ++ requests ∧
    NoDup requests ∧
    Forall (λ c, c ∉ dom (heap s)) requests ∧
    (λ c, heap after.2 !! c) <$> requests
      = (λ d, Some (set_destination d v)) <$> destinations ∧
    heap after.2 !! image = Some v.
Proof.
  intros after work stacked format destinations.
  unfold after, destinations, save_post_process_result. rewrite Hresult.
  assert (image ∈ dom (heap s)) as Hdom by (apply elem_of_dom; by eexists).
  pose proof (is_fresh (dom (heap s))) as Hf1.
  set (c1 := fresh (dom (heap s))) in *.
  assert (c1 ≠ image) as Hc1 by (by intros ->).
  destruct final; cbn [negb].
  { (* final *)
    erewrite bind_returned; [|by apply (save_image_run _ _ v)].
    fold c1. unfold ret. cbn [fst snd heap DYNAMIC_DATA save_queue set_queue].
    rewrite !decide_True by done.
    split; [done|]. exists [c1].
    split; [done|]. split; [apply NoDup_singleton|].
    split; [by apply Forall_singleton|].
    split; [|by rewrite lookup_insert_ne].
    cbn [fmap list_fmap]. by rewrite lookup_insert_eq. }
  rewrite string_app_empty_r.
  erewrite bind_returned; [|by apply (save_image_run _ _ v)].
  fold c1.
  set (h1 := <[c1 := _]> (heap s)).
  assert (h1 !! image = Some v) as Hv1 by (unfold h1; by rewrite lookup_insert_ne).
  assert (dom h1 = {[c1]} ∪ dom (heap s)) as Hd1 by (unfold h1; apply dom_insert_L).
  pose proof (is_fresh (dom h1)) as Hf2.
  set (c2 := fresh (dom h1)) in *.
  assert (c2 ≠ c1 ∧ c2 ∉ dom (heap s)) as [Hc21 Hc2s].
  { rewrite Hd1 in Hf2. split; [intros Heq | intros Hin]; apply Hf2.
    - apply elem_of_union_l, elem_of_singleton, Heq.
    - apply elem_of_union_r, Hin. }
  assert (c2 ≠ image) as Hc2 by (by intros ->).
  erewrite bind_returned; [|by apply (save_image_run _ _ v)].
  cbn [heap DYNAMIC_DATA save_queue set_queue]. rewrite !decide_True by done.
  fold c1 h1 c2.
  set (h2 := <[c2 := _]> h1).
  assert (h2 !! image = Some v) as Hv2 by (unfold h2; by rewrite lookup_insert_ne).
  destruct (_save_every_image ctx).
  - (* a third, time-stamped save *)
    assert (dom h2 = {[c2]} ∪ ({[c1]} ∪ dom (heap s))) as Hd2.
    { unfold h2. by rewrite dom_insert_L, Hd1. }
    pose proof (is_fresh (dom h2)) as Hf3.
    set (c3 := fresh (dom h2)) in *.
    assert (c3 ≠ c2 ∧ c3 ≠ c1 ∧ c3 ∉ dom (heap s)) as (Hc32 & Hc31 & Hc3s).
    { rewrite Hd2 in Hf3. split; [|split]; [intros Heq|intros Heq|intros Hin];
        apply Hf3.
      - apply elem_of_union_l, elem_of_singleton, Heq.
      - apply elem_of_union_r, elem_of_union_l, elem_of_singleton, Heq.
      - apply elem_of_union_r, elem_of_union_r, Hin. }
    assert (c3 ≠ image) as Hc3 by (by intros ->).
    rewrite (save_image_run _ _ v) by done.
    cbn [fst snd heap DYNAMIC_DATA save_queue set_queue].
    rewrite !decide_True by done. fold c1 h1 c2 h2 c3.
    split; [done|]. exists [c1; c2; c3].
    split; [by rewrite <- !app_assoc|]. split.
    { apply NoDup_cons. split; [|apply NoDup_cons; split; [|apply NoDup_singleton]].
      - intros Hin. apply elem_of_cons in Hin as [?|Hin]; [done|].
        by apply list_elem_of_singleton in Hin.
      - intros Hin. by apply list_elem_of_singleton in Hin. }
    split; [by repeat constructor|]. split.
    + cbn [fmap list_fmap app]. f_equal; [|f_equal; [|f_equal]].
      * rewrite lookup_insert_ne by done. unfold h2.
        rewrite lookup_insert_ne by done. unfold h1. by rewrite lookup_insert_eq.
      * rewrite lookup_insert_ne by done. unfold h2. by rewrite lookup_insert_eq.
      * by rewrite lookup_insert_eq.
    + by rewrite lookup_insert_ne.
  - unfold ret. cbn [fst snd heap DYNAMIC_DATA save_queue set_queue].
    split; [done|]. exists [c1; c2].
    split; [by rewrite <- !app_assoc|]. split.
    { apply NoDup_cons. split; [|apply NoDup_singleton].
      intros Hin. by apply list_elem_of_singleton in Hin. }
    split; [by repeat constructor|]. split; [|done].
    cbn [fmap list_fmap app]. f_equal; [|f_equal].
    * unfold h2. rewrite lookup_insert_ne by done. unfold h1.
      by rewrite lookup_insert_eq.
    * unfold h2. by rewrite lookup_insert_eq.
Qed.

Lemma save_post_process_result_requests_witness :
  ∃ requests,
    save_queue
      (DYNAMIC_DATA
         (save_post_process_result Examples.cfg ExamplesMore.save_context false
            Examples.session_at_work).2)
    = [4%positive] ++ requests ∧
    length requests = 2.
Proof.
  assert (heap Examples.session_at_work !! 3%positive = Some (Examples.frame 3))
    as Hv by (vm_compute; reflexivity).
  destruct (save_post_process_result_requests Examples.cfg
              ExamplesMore.save_context false Examples.session_at_work
              3%positive (Examples.frame 3) eq_refl Hv)
    as (_ & requests & Hq & _ & _ & Hdest & _).
  exists requests. split; [exact Hq|].
  apply (f_equal length) in Hdest. by rewrite !length_fmap in Hdest.
Defined.

(** *** [start_session]: what it reports and what it checks *)

(** X15. [start_session] only adds messages at the end of the hub. When the
    call is left by a session error, the last message added is an error
    message that carries the message and the details of that exception, and
    the ones before it are informations; when it returns, or is left by
    another exception, every message added is an information. *)
Theorem start_session_reports_session_errors (w : World) (s : State) :
  ∃ sent,
    MESSAGE_HUB (start_session w s).2 = MESSAGE_HUB s ++ sent ∧
    match (start_session w s).1 with
    | Raised e =>
        if isinstance e SessionError then
          ∃ info,
            sent = info ++ [Msg LevelError "Session error. {} : {}"
                              [exn_message e; exn_details e]] ∧
            all_info info
        else all_info sent
    | Returned _ => all_info sent
    end.
Proof.
  unfold all_info.
  start_cases;
    (simpl; eexists; split; [rewrite <- ?app_assoc; reflexivity|]; simpl;
     first [ by repeat constructor
           | exists []; split; [reflexivity | by repeat constructor]
           | eexists [_]; split; [reflexivity | by repeat constructor]
           | eexists [_; _]; split; [reflexivity | by repeat constructor]
           | eexists [_; _; _]; split; [reflexivity | by repeat constructor] ]).
Qed.

Lemma check_folders_first_missing
    (w : World) (present rest : list (string * string))
    (role path : string) (s : State) :
  (∀ r p, (r, p) ∈ present → is_dir w p = true) →
  is_dir w path = false →
  check_folders w (present ++ (role, path) :: rest) s
  = (Raised (Exn CriticalFolderMissing
               ["Missing critical folder";
                "Your currently configured " +:+ role +:+ " folder '" +:+ path
                  +:+ "' is missing."]), s).
Proof.
  intros Hpresent Hmissing.
  induction present as [|[r p] present IH]; cbn [app check_folders].
  - by rewrite Hmissing.
  - rewrite (Hpresent r p) by apply list_elem_of_here. cbn [negb].
    apply IH. intros r' p' Hin. apply (Hpresent r' p').
    by apply list_elem_of_further.
Qed.

(** X16. The folder check of a new session reports the first missing folder
    in the order scan, work, web: when the session is stopped, a supported
    input system is configured and the folders before one that is missing
    are all there, [start_session] is left by [CriticalFolderMissing] with
    the title Missing critical folder and a message that names the role and
    the path of that folder, whatever the state of the folders after it. *)
Theorem start_session_names_first_missing_folder
    (w : World) (s : State)
    (present rest : list (string * string)) (role path : string)
    (Hstopped : session (DYNAMIC_DATA s) = stopped)
    (Hsupported : get_input_system (config w)
                    ∈ [SCANNER_TYPE_FILESYSTEM; SCANNER_TYPE_INDI])
    (Hfolders : folders_dict (config w) = present ++ (role, path) :: rest)
    (Hpresent : ∀ r p, (r, p) ∈ present → is_dir w p = true)
    (Hmissing : is_dir w path = false) :
  (start_session w s).1
  = Raised (Exn CriticalFolderMissing
              ["Missing critical folder";
               "Your currently configured " +:+ role +:+ " folder '" +:+ path
                 +:+ "' is missing."]).
Proof.
  destruct (create_scanner_supported (config w) _ Hsupported) as (sc0 & Hsc0 & _).
  unfold start_session. unfold_M. cbn beta.
  rewrite (is_stopped_true _ Hstopped). unfold dispatch_info. unfold_M.
  rewrite Hsc0, Hfolders.
  rewrite (check_folders_first_missing w present rest role path) by done.
  reflexivity.
Qed.

Lemma start_session_names_first_missing_folder_witness :
  (start_session Examples.world_no_work_folder Examples.session_stopped).1
  = Raised (Exn CriticalFolderMissing
              ["Missing critical folder";
               "Your currently configured work folder '/als/work' is missing."]).
Proof.
  apply (start_session_names_first_missing_folder
           Examples.world_no_work_folder Examples.session_stopped
           [("scan", "/als/scan")] [("web", "/als/web")] "work" "/als/work").
  - reflexivity.
  - apply list_elem_of_here.
  - reflexivity.
  - intros r p Hin. apply list_elem_of_singleton in Hin as [= -> ->]. reflexivity.
  - reflexivity.
Defined.

(** X17. Pause and resume. After [pause_session] on a running session and
    a [start_session] whose web content is prepared and whose scanner
    starts, both calls have returned, the session is running again on the
    scanner it had (stopped, then started), and the four queues, the stacker,
    the heap and the last stacking result are what they were before the
    pause. *)
Theorem pause_then_start_resumes
    (w : World) (s : State) (sc : InputScanner)
    (Hrunning : session (DYNAMIC_DATA s) = running)
    (Hscanner : _input_scanner s = Some sc)
    (Hweb : web_content_error w = None)
    (Hstart : (start w (stop sc)).1 = Returned ()) :
  let resumed := start_session w (pause_session s).2 in
  (pause_session s).1 = Returned () ∧
  resumed.1 = Returned () ∧
  session (DYNAMIC_DATA resumed.2) = running ∧
  _input_scanner resumed.2 = Some (start w (stop sc)).2 ∧
  (∀ q, queue q (DYNAMIC_DATA resumed.2) = queue q (DYNAMIC_DATA s)) ∧
  _stacker resumed.2 = _stacker s ∧
  heap resumed.2 = heap s ∧
  _last_stacking_result resumed.2 = _last_stacking_result s.
Proof.
  intros resumed. unfold resumed.
  rewrite (pause_session_running s sc Hrunning Hscanner). cbn [fst snd].
  unfold start_session, _setup_web_content, input_scanner_start, dispatch_info,
    dispatch_error. unfold_M. simpl. rewrite Hweb.
  destruct (start w (stop sc)) as [r sc'] eqn:Hrun. simpl in Hstart. subst r.
  rewrite ?Hrun. simpl. rewrite ?Hrun. simpl.
  repeat split; try done.
Qed.

Lemma pause_then_start_resumes_witness :
  session
    (DYNAMIC_DATA
       (start_session Examples.world_ok
          (pause_session Examples.session_at_work).2).2) = running ∧
  _input_scanner
    (start_session Examples.world_ok (pause_session Examples.session_at_work).2).2
  = Some (FolderScanner (Some {| alive := true |})).
Proof.
  destruct (pause_then_start_resumes Examples.world_ok Examples.session_at_work
              (FolderScanner (Some {| alive := true |}))
              eq_refl eq_refl eq_refl eq_refl)
    as (_ & _ & Hs & Hsc & _).
  split; [exact Hs | exact Hsc].
Defined.

(** X18. An INDI server that cannot be reached does not make the start
    fail: on a stopped session with the input system INDI, the folders in
    place and the web content prepared, [start_session] returns normally and
    sets the session running although [connectServer] got no connection; the
    scanner it leaves is not connected, and no error message was sent. *)
Theorem start_session_indi_unreachable (w : World) (s : State)
    (Hstopped : session (DYNAMIC_DATA s) = stopped)
    (Hindi : get_input_system (config w) = SCANNER_TYPE_INDI)
    (Hfine : world_fine w)
    (Hunreachable : connectServer w = false) :
  (start_session w s).1 = Returned () ∧
  session (DYNAMIC_DATA (start_session w s).2) = running ∧
  (∃ sc, _input_scanner (start_session w s).2 = Some sc ∧
         is_scanning sc = false) ∧
  ∃ sent, MESSAGE_HUB (start_session w s).2 = MESSAGE_HUB s ++ sent ∧
          all_info sent.
Proof.
  destruct Hfine as (_ & Hdirs & Hweb & _).
  destruct (folders_present w Hdirs) as (Hscan & Hwork & Hwebdir).
  unfold start_session, check_folders, folders_dict, _setup_web_content,
    input_scanner_start, dispatch_info, dispatch_error. unfold_M. simpl.
  rewrite (is_stopped_true _ Hstopped), Hindi. simpl.
  rewrite Hscan, Hwork, Hwebdir, Hweb. simpl. rewrite Hunreachable.
  split; [done|]. split; [done|]. split; [by eexists|].
  eexists. split; [rewrite <- ?app_assoc; reflexivity|].
  unfold all_info. by repeat constructor.
Qed.

Lemma start_session_indi_unreachable_witness :
  (start_session ExamplesMore.world_indi_unreachable Examples.session_stopped).1
    = Returned () ∧
  from_option is_scanning true
    (_input_scanner
       (start_session ExamplesMore.world_indi_unreachable
          Examples.session_stopped).2) = false.
Proof.
  assert (world_fine ExamplesMore.world_indi_unreachable) as Hfine.
  { split; [apply list_elem_of_further, list_elem_of_here|].
    split; [reflexivity|]. split; reflexivity. }
  destruct (start_session_indi_unreachable ExamplesMore.world_indi_unreachable
              Examples.session_stopped eq_refl eq_refl Hfine eq_refl)
    as (Hret & _ & (sc & Hsc & Hrest) & _).
  split; [exact Hret|]. by rewrite Hsc.
Defined.

(** *** Invariants of the references *)

(** [start_session], [stop_session] and [pause_session] create no object
    and put nothing into a queue. *)
Lemma session_calls_frame (c : call) (s : State) :
  (∃ w, c = CallStart w) ∨ c = CallStop ∨ c = CallPause →
  heap (run_call c s).2 = heap s ∧
  _last_stacking_result (run_call c s).2 = _last_stacking_result s ∧
  ∀ q l, l ∈ queue q (DYNAMIC_DATA (run_call c s).2) →
         l ∈ queue q (DYNAMIC_DATA s).
Proof.
  intros [[w ->]|[->| ->]]; simpl.
  - split; [start_cases|]. split; [start_cases|].
    intros q l. start_cases; by destruct q.
  - split; [unfold_calls; unfold_M; simpl; by all_cases|].
    split; [unfold_calls; unfold_M; simpl; by all_cases|].
    intros q l. unfold_calls. unfold_M. simpl.
    all_cases; destruct q; simpl; rewrite ?drain_empty; try done;
      by intros ?%elem_of_nil.
  - split; [unfold_calls; unfold_M; simpl; by all_cases|].
    split; [unfold_calls; unfold_M; simpl; by all_cases|].
    intros q l. unfold_calls. unfold_M. simpl.
    all_cases; by destruct q.
Qed.

(** What [on_new_stack_result] does to a state that holds the image: the
    whole state it leaves. *)
Lemma on_new_stack_result_run (s : State) (image : loc) (v : Image) :
  heap s !! image = Some v →
  let v' := set_origin "Stacking result" v in
  let h1 := <[image := v']> (heap s) in
  let c1 := fresh (dom h1) in
  let h2 := <[c1 := v']> h1 in
  let c2 := fresh (dom h2) in
  on_new_stack_result image s
  = (Returned (),
     {| DYNAMIC_DATA := set_queue PostProcessQueue [c2] (DYNAMIC_DATA s);
        MESSAGE_HUB := MESSAGE_HUB s;
        heap := <[c2 := v']> h2;
        _input_scanner := _input_scanner s;
        _stacker := _stacker s;
        _last_stacking_result := Some c1 |}).
Proof.
  intros Hv v' h1 c1 h2 c2.
  assert (alter (set_origin "Stacking result") image (heap s) = h1) as Halter.
  { apply map_eq. intros l. unfold h1. rewrite lookup_alter.
    case_decide as Hl.
    - subst l. by rewrite Hv, lookup_insert_eq.
    - by rewrite lookup_insert_ne. }
  assert (h1 !! image = Some v') as Hh1 by (unfold h1; by rewrite lookup_insert_eq).
  assert (c1 ≠ image) as Hc1.
  { intros Heq. apply (is_fresh (dom h1)). fold c1. rewrite Heq.
    apply elem_of_dom. by eexists. }
  assert (h2 !! image = Some v') as Hh2 by (unfold h2; by rewrite lookup_insert_ne).
  unfold_calls. unfold clone. unfold_M. simpl.
  state_eq; rewrite ?Halter, ?Hh1; simpl; fold c1 h2; rewrite ?Hh2; simpl;
    try fold c2; try done.
  apply DynamicData_eq; simpl; try reflexivity.
  intros []; simpl; try reflexivity. by rewrite drain_empty.
Qed.


(** What one call does to the references: the heap keeps its objects; a
    reference found in a queue afterwards was there before, or is to an
    object made by the call, or is the image the call put there; and the
    last stacking result is the one before, or an object made by the call
    that is in no queue. *)
Lemma run_call_references (c : call) (s : State) :
  references_live s →
  call_ok c s →
  dom (heap s) ⊆ dom (heap (run_call c s).2) ∧
  (∀ q l, l ∈ queue q (DYNAMIC_DATA (run_call c s).2) →
     l ∈ queue q (DYNAMIC_DATA s) ∨
     ((l ∉ dom (heap s)) ∧ l ∈ dom (heap (run_call c s).2)) ∨
     (c = CallNewImageRead l ∨ c = CallNewPreProcessedImage l)) ∧
  (∀ l, _last_stacking_result (run_call c s).2 = Some l →
     _last_stacking_result s = Some l ∨
     ((l ∉ dom (heap s)) ∧ l ∈ dom (heap (run_call c s).2) ∧
      ∀ q, l ∉ queue q (DYNAMIC_DATA (run_call c s).2))).
Proof.
  intros [Hlive Hlast_live] [Himage Hput].
  destruct c as [w| | |image|image|image| |ts image ext folder base add].
  - destruct (session_calls_frame (CallStart w) s) as (Hh & Hl & Hq); [eauto|].
    rewrite Hh, Hl. split; [done|]. split; [|by left]. intros q l Hin. left. eauto.
  - destruct (session_calls_frame CallStop s) as (Hh & Hl & Hq); [eauto|].
    rewrite Hh, Hl. split; [done|]. split; [|by left]. intros q l Hin. left. eauto.
  - destruct (session_calls_frame CallPause s) as (Hh & Hl & Hq); [eauto|].
    rewrite Hh, Hl. split; [done|]. split; [|by left]. intros q l Hin. left. eauto.
  - simpl. unfold_calls. unfold_M. simpl. split; [done|]. split; [|by left].
    intros q l Hin. destruct q; simpl in Hin; try by left.
    apply elem_of_app in Hin as [Hin|Hin]; [by left|].
    apply list_elem_of_singleton in Hin as ->. right; right. by left.
  - simpl. unfold_calls. unfold_M. simpl. split; [done|]. split; [|by left].
    intros q l Hin. destruct q; simpl in Hin; try by left.
    apply elem_of_app in Hin as [Hin|Hin]; [by left|].
    apply list_elem_of_singleton in Hin as ->. right; right. by right.
  - (* a new stacking result *)
    assert (image ∈ dom (heap s)) as Hdom by (by apply Himage).
    pose proof Hdom as [v Hv]%elem_of_dom.
    cbn [run_call]. rewrite (on_new_stack_result_run s image v Hv). simpl.
    set (v' := set_origin "Stacking result" v).
    set (h1 := <[image := v']> (heap s)).
    set (c1 := fresh (dom h1)).
    set (h2 := <[c1 := v']> h1).
    set (c2 := fresh (dom h2)).
    assert (dom h1 = dom (heap s)) as Hd1.
    { unfold h1. rewrite dom_insert_L. set_solver. }
    assert (c1 ∉ dom (heap s)) as Hc1 by (rewrite <- Hd1; apply is_fresh).
    assert (dom h2 = {[c1]} ∪ dom (heap s)) as Hd2.
    { unfold h2. by rewrite dom_insert_L, Hd1. }
    assert (c2 ∉ {[c1]} ∪ dom (heap s)) as Hc2 by (rewrite <- Hd2; apply is_fresh).
    assert (c2 ≠ c1 ∧ c2 ∉ dom (heap s)) as [Hc21 Hc2s].
    { split; [intros Heq | intros Hin]; apply Hc2.
      - apply elem_of_union_l, elem_of_singleton, Heq.
      - apply elem_of_union_r, Hin. }
    rewrite !dom_insert_L, Hd2.
    split; [set_solver|]. split.
    + intros q l Hin. destruct q; simpl in Hin; try by left.
      apply list_elem_of_singleton in Hin as ->. right; left.
      split; [done | set_solver].
    + intros l [= <-]. right. split; [done|]. split; [set_solver|].
      intros q Hin. destruct q; simpl in Hin.
      * by apply Hc1, (Hlive PreProcessQueue).
      * by apply Hc1, (Hlive StackerQueue).
      * apply list_elem_of_singleton in Hin. by apply Hc21.
      * by apply Hc1, (Hlive SaverQueue).
  - (* processing on demand *)
    simpl. unfold_calls. unfold clone. unfold_M. simpl.
    destruct ((0 <? size (_stacker s)) && (qsize (process_queue (DYNAMIC_DATA s)) =? 0))
      eqn:Hcond; simpl; [|split; [done|]; split; intros; by left].
    destruct (_last_stacking_result s) as [last|] eqn:Hlast; simpl;
      [|split; [done|]; split; intros; left; (done || congruence)].
    pose proof (is_fresh (dom (heap s))) as Hfresh.
    set (c := fresh (dom (heap s))) in *.
    split; [|split; [|intros; left; congruence]].
    + destruct (heap s !! last); simpl; [|done].
      rewrite dom_insert_L. set_solver.
    + intros q l Hin. destruct q; simpl in Hin; try by left.
      apply elem_of_app in Hin as [Hin|Hin]; [by left|].
      apply list_elem_of_singleton in Hin as ->.
      pose proof (Hlast_live last eq_refl) as [v ->]%elem_of_dom.
      simpl. right; left. split; [done|]. rewrite dom_insert_L. set_solver.
  - (* a save request *)
    assert (image ∈ dom (heap s)) as Hdom by (by apply Himage).
    pose proof Hdom as [v Hv]%elem_of_dom.
    cbn [run_call]. rewrite (save_image_run _ _ v) by done. simpl.
    pose proof (is_fresh (dom (heap s))) as Hfresh.
    rewrite dom_insert_L.
    split; [set_solver|]. split; [|by left].
    intros q l Hin. destruct q; simpl in Hin; try by left.
    apply elem_of_app in Hin as [Hin|Hin]; [by left|].
    apply list_elem_of_singleton in Hin as ->. right; left.
    split; [done | set_solver].
Qed.

Lemma references_invariant_step (c : call) (s : State) :
  references_live s → last_result_private s → call_ok c s →
  references_live (run_call c s).2 ∧ last_result_private (run_call c s).2.
Proof.
  intros Hlive Hprivate Hok.
  destruct (run_call_references c s Hlive Hok) as (Hheap & Hqueues & Hlast).
  destruct Hlive as [Hlive_q Hlive_l]. destruct Hok as [Himage Hput].
  split; [split|].
  - intros q l Hin.
    destruct (Hqueues q l Hin) as [Hold|[[_ Hnew]|Hgiven]].
    + apply Hheap, (Hlive_q q l Hold).
    + exact Hnew.
    + apply Hheap, Himage. by destruct Hgiven as [-> | ->].
  - intros l Hl. destruct (Hlast l Hl) as [Hold|(_ & Hnew & _)].
    + apply Hheap, (Hlive_l l Hold).
    + exact Hnew.
  - intros l q Hl Hin. destruct (Hlast l Hl) as [Hold|(_ & _ & Hnone)].
    + destruct (Hqueues q l Hin) as [Hin_old|[[Hfresh _]|Hgiven]].
      * exact (Hprivate l q Hold Hin_old).
      * apply Hfresh, (Hlive_l l Hold).
      * exact (Hput l Hgiven Hold).
    + exact (Hnone q Hin).
Qed.

(** X19. The references the controller holds stay sound along any sequence
    of calls (start, stop, pause, the three stage results, processing on
    demand, a save request), each made with an image of the heap, and an
    image that enters a queue as it is not being the last stacking result:
    every reference in a queue and the last stacking result refer to objects
    of the heap, and the object kept as last stacking result is in no queue,
    so no stage ever works on it. *)
Theorem references_stay_sound (cs : list call) (s : State)
    (Hlive : references_live s)
    (Hprivate : last_result_private s)
    (Hcalls : calls_ok cs s) :
  references_live (run_calls cs s) ∧ last_result_private (run_calls cs s).
Proof.
  revert s Hlive Hprivate Hcalls.
  induction cs as [|c cs IH]; intros s Hlive Hprivate Hcalls; [done|].
  destruct Hcalls as [Hok Hrest]. simpl.
  destruct (references_invariant_step c s Hlive Hprivate Hok) as [Hlive' Hprivate'].
  by apply IH.
Qed.

Lemma references_stay_sound_witness :
  references_live (run_calls ExamplesMore.some_calls Examples.session_at_work) ∧
  last_result_private
    (run_calls ExamplesMore.some_calls Examples.session_at_work).
Proof.
  assert (∀ (h : gmap loc Image) l, is_Some (h !! l) → l ∈ dom h) as Hdom.
  { intros h l. apply elem_of_dom. }
  apply references_stay_sound.
  - split.
    + intros q l Hin. apply Hdom.
      destruct q; simpl in Hin; apply list_elem_of_singleton in Hin as ->;
        vm_compute; by eexists.
    + intros l [= <-]. apply Hdom. vm_compute. by eexists.
  - intros l q [= <-] Hin.
    destruct q; simpl in Hin; by apply list_elem_of_singleton in Hin.
  - repeat split.
    + intros l [= <-]. apply Hdom. vm_compute. by eexists.
    + by intros l [?|?].
    + by intros l ?.
    + by intros l [?|?].
    + intros l [= <-]. apply Hdom. vm_compute. by eexists.
    + intros l [[= <-]|?]; [|done]. vm_compute. discriminate.
    + by intros l ?.
    + by intros l [?|?].
Defined.
End controller_calls.

(** ** The web server *)

Section web_server.
Import Www.

(** X20. Start and stop of the web server: a start that succeeds marks the
    server running, records the address, and keeps the server object; the
    [stop_www] that follows drops the object and clears the mark. And
    [stop_www] is idempotent on every state: a second call changes nothing,
    in particular it sends no second message. *)
Theorem start_www_then_stop_www (w : WebWorld) (s : WebState)
    (Hstarts : server_start_error w = None) :
  (start_www w s).1 = Returned () ∧
  web_server_is_running (start_www w s).2 = true ∧
  _web_server (start_www w s).2 = Some (web_folder_path w) ∧
  web_server_ip (start_www w s).2 = Some (get_ip w) ∧
  _web_server (stop_www (start_www w s).2) = None ∧
  web_server_is_running (stop_www (start_www w s).2) = false ∧
  ∀ s', stop_www (stop_www s') = stop_www s'.
Proof.
  unfold start_www. rewrite Hstarts. simpl.
  repeat split; try done.
  intros s'. unfold stop_www.
  destruct (_web_server s') eqn:Hserver; [|by rewrite Hserver].
  destruct (web_server_is_running s') eqn:Hrun; simpl; [done|].
  by rewrite Hserver, Hrun.
Qed.

Lemma start_www_then_stop_www_witness :
  web_server_is_running
    (start_www ExamplesMore.web_world_ok ExamplesMore.web_idle).2 = true ∧
  web_server_is_running
    (stop_www (start_www ExamplesMore.web_world_ok ExamplesMore.web_idle).2)
    = false.
Proof.
  destruct (start_www_then_stop_www ExamplesMore.web_world_ok
              ExamplesMore.web_idle eq_refl)
    as (_ & Hrun & _ & _ & _ & Hstop & _).
  split; [exact Hrun | exact Hstop].
Defined.

(** X21. A web server that cannot start: [start_www] is left by
    [WebServerStartFailure] with the translated title and the text of the
    [OSError] as details, after one error message with that text was sent;
    the running mark and the recorded address are as before. The server
    object that could not start stays in the controller, and when no server
    was running [stop_www] does not remove it. *)
Theorem start_www_failure (w : WebWorld) (s : WebState) (os_error : string)
    (Hfails : server_start_error w = Some os_error) :
  (start_www w s).1
    = Raised (Exn WebServerStartFailure
                [translate w "Could not start web server"; os_error]) ∧
  hub (start_www w s).2
    = hub s ++ [Msg LevelError "Could not start web server : {}" [os_error]] ∧
  web_server_is_running (start_www w s).2 = web_server_is_running s ∧
  web_server_ip (start_www w s).2 = web_server_ip s ∧
  _web_server (start_www w s).2 = Some (web_folder_path w) ∧
  (web_server_is_running s = false →
   stop_www (start_www w s).2 = (start_www w s).2).
Proof.
  unfold start_www. rewrite Hfails. simpl.
  repeat split; try done.
  intros Hidle. unfold stop_www. simpl. by rewrite Hidle.
Qed.

Lemma start_www_failure_witness :
  (start_www ExamplesMore.web_world_port_taken ExamplesMore.web_idle).1
    = Raised (Exn WebServerStartFailure
                ["Could not start web server";
                 "[Errno 98] Address already in use"]) ∧
  stop_www (start_www ExamplesMore.web_world_port_taken ExamplesMore.web_idle).2
    = (start_www ExamplesMore.web_world_port_taken ExamplesMore.web_idle).2.
Proof.
  destruct (start_www_failure ExamplesMore.web_world_port_taken
              ExamplesMore.web_idle _ eq_refl)
    as (Hraised & _ & _ & _ & _ & Hstop).
  split; [exact Hraised | by apply Hstop].
Defined.
End web_server.
